(** * Student-records service (app.py): a shallow embedding and its properties

    The program is a Flask application over one CSV file.  Every handler
    reads the whole file with [read_csv], works on the list of rows in
    memory and, for a mutation, rewrites the whole file with [write_csv].
    The [/average] endpoint cuts the rows into slices of [thread_size]
    rows, runs [calculate_avg] on each slice in a thread of its own and
    reads the results back from a queue.

    Modelling choices.
    - A row is a Python dict from column names to text: [gmap string string].
      The file is represented by the list of dicts [csv.DictReader] yields
      from it ([None] when the file does not exist); a row written by
      [csv.DictWriter] is read back as the dict of its five columns.
    - A write that fails stops between two rows in this representation.
      The bytes of the file are modelled apart, for fields that need no
      quoting ([file_text], [cut], [dict_reader]): there a write can stop
      inside a line, and the two representations are shown to agree when
      it stops between two rows.
    - Marks are parsed on demand by Python's [float] and averaged in
      binary64 arithmetic: Rocq's primitive floats.  [float] applied to a
      string is a parameter of the development ([py_float]); [round(x, 2)]
      is modelled exactly ([py_round2]).
    - Exceptions that leave a handler are results of the handler
      ([Raised]); Flask turns them into a 500 page.
    - What the environment decides is passed in: whether reading the file
      raises, whether and where writing it raises ([env]), and the order in
      which the worker threads put their results on the queue. *)

From Stdlib Require Import ZArith Ascii Floats Uint63.
From stdpp Require Import gmap strings list fin_maps.

Open Scope string_scope.
Open Scope list_scope.

(** ** Data model *)

Abbreviation Row := (gmap string string).

(** The CSV file: [None] when [os.path.isfile(csv_file)] is false. *)
Abbreviation store := (option (list (gmap string string))).

Definition csv_header : list string :=
  ["RollNo"; "Name"; "English"; "Maths"; "Science"].

(** A value of a JSON request body: text, or anything else (a number, a
    boolean, null, a list, an object).  A non-text value never compares
    equal to text; [csv.writer] writes it as the text carried here. *)
Inductive json :=
  | JStr (s : string)
  | JOther (written : string).

Definition csv_text (v : json) : string :=
  match v with
  | JStr s => s
  | JOther written => written
  end.

#[global] Instance json_eq_dec : EqDecision json.
Proof. solve_decision. Defined.

Inductive exn :=
  | KeyError (key : string)
  | ValueError
  | OSError
  | ZeroDivisionError
  | TypeError.

#[global] Instance exn_eq_dec : EqDecision exn.
Proof. solve_decision. Defined.

(** A computation that may raise. *)
Inductive result (A : Type) :=
  | Ok (a : A)
  | Raise (ex : exn).
Arguments Ok {A} a.
Arguments Raise {A} ex.

Definition bind {A B : Type} (m : result A) (k : A → result B) : result B :=
  match m with
  | Ok a => k a
  | Raise ex => Raise ex
  end.

Notation "x ←! m ; k" := (bind m (λ x, k))
  (at level 20, m at level 100, k at level 200, right associativity,
   format "'[' x  ←!  m ;  '/' k ']'").
Notation "' p ←! m ; k" := (bind m (λ p, k))
  (at level 20, p pattern, m at level 100, k at level 200,
   right associativity).

(** [row[key]] *)
Definition getitem {V : Type} (row : gmap string V) (key : string) : result V :=
  match row !! key with
  | Some v => Ok v
  | None => Raise (KeyError key)
  end.

(** The Average field: [round] gives a float, the except branch the
    integer 0. *)
Inductive number :=
  | PyInt (z : Z)
  | PyFloat (f : float).

(** An element of [student_avg]. *)
Record avg_entry := {
  RollNo : string;
  Name : string;
  Average : number
}.

(** What a handler does: a JSON or HTML reply with its status code, or an
    exception that escapes the handler. *)
Inductive body :=
  | Error (msg : string)
  | Message (msg : string)
  | RowBody (row : gmap string string)
  | Averages (all_student_avg : list avg_entry)
  | Template (name : string).

Inductive outcome :=
  | Reply (b : body) (status : Z)
  | Raised (ex : exn).

Definition status_of (o : outcome) : option Z :=
  match o with
  | Reply _ status => Some status
  | Raised _ => None
  end.

(** ** The environment *)

(** Where writing the file raises: in [open], or at the end of the first
    [n] rows, before a byte of the next row is sent.  A write that the
    device stops inside a line leaves a record that is no [Row] (its last
    fields are [None]); it is modelled on the bytes of the file, further
    down ([file_text], [cut], [dict_reader]). *)
Inductive fault :=
  | OpenFails
  | WriteFailsAfter (n : nat).

Record env := {
  read_raises : bool;
  write_fault : option fault
}.

(** No input or output error. *)
Definition calm : env := {| read_raises := false; write_fault := None |}.

(** The records held by the file; a missing file holds none. *)
Definition stored (fs : store) : list Row := default [] fs.

(** ** read_csv and write_csv *)

Definition read_csv (e : env) (fs : store) : list Row :=
  match fs with
  | Some rows => if read_raises e then [] else rows
  | None => []
  end.

(** [DictWriter._dict_to_list]: a key outside [fieldnames] raises
    ValueError; a missing key is written as the empty string. *)
Definition dict_to_list (rowdict : Row) : result (list string) :=
  if decide (dom rowdict ⊆ list_to_set csv_header)
  then Ok ((λ key, default "" (rowdict !! key)) <$> csv_header)
  else Raise ValueError.

(** The dict [csv.DictReader] makes of a line under the header
    [csv_header]. *)
Definition as_read (fields : list string) : Row :=
  list_to_map (zip csv_header fields).

(** A dict as it comes back from the file once written. *)
Definition written_row (rowdict : Row) : Row :=
  as_read ((λ key, default "" (rowdict !! key)) <$> csv_header).

(** [writer.writerows(row)]: the rows that reached the file, and the
    exception that stopped the loop, if any.  [room] is the number of rows
    the device still accepts ([None]: no limit); the device fails between
    two rows, never inside one (see [fault]). *)
Fixpoint writerows (room : option nat) (row : list Row)
  : list Row * option exn :=
  match row with
  | [] => ([], None)
  | rowdict :: rest =>
      match dict_to_list rowdict with
      | Raise ex => ([], Some ex)
      | Ok fields =>
          match room with
          | Some O => ([], Some OSError)
          | _ =>
              let '(written, ex) := writerows (Nat.pred <$> room) rest in
              (as_read fields :: written, ex)
          end
      end
  end.

(** The body of the [try] block of [write_csv]: the exception it raises,
    if any, and the file it leaves.  [open(csv_file, "w")] truncates the
    file, so what a failing [writerows] has written stays. *)
Definition write_csv_try (e : env) (row : list Row) (fs : store)
  : option exn * store :=
  match write_fault e with
  | Some OpenFails => (Some OSError, fs)
  | Some (WriteFailsAfter n) =>
      let '(written, ex) := writerows (Some n) row in (ex, Some written)
  | None =>
      let '(written, ex) := writerows None row in (ex, Some written)
  end.

Definition write_csv (e : env) (row : list Row) (fs : store) : bool * store :=
  match write_csv_try e row fs with
  | (None, fs') => (true, fs')
  | (Some _, fs') => (false, fs')
  end.

(** ** insert_data *)

(** [any(item['RollNo'] == rollno for item in row)] *)
Fixpoint any_RollNo (row : list Row) (rollno : string) : result bool :=
  match row with
  | [] => Ok false
  | item :: rest =>
      x ←! getitem item "RollNo";
      if decide (x = rollno) then Ok true else any_RollNo rest rollno
  end.

(** Past the check of the five fields [data['RollNo']] is present: it is
    read with a default that is never used. *)
Definition insert_data (e : env) (data : Row) (fs : store) : outcome * store :=
  if negb (forallb (λ field, bool_decide (is_Some (data !! field))) csv_header)
  then (Reply (Error "Missing required fields") 400, fs)
  else
    let row := read_csv e fs in
    match any_RollNo row (default "" (data !! "RollNo")) with
    | Raise ex => (Raised ex, fs)
    | Ok true =>
        (Reply (Error ("Record with the RollNo " +:+ default "" (data !! "RollNo")
                       +:+ " already exists")) 400, fs)
    | Ok false =>
        let row := row ++ [data] in
        let '(ok, fs') := write_csv e row fs in
        if ok then (Reply (Message "Record inserted successfully") 201, fs')
        else (Reply (Error "Failed to write record") 500, fs')
    end.

(** ** remove_data *)

(** [[row for row in records if row["RollNo"] != rollno]] *)
Fixpoint filter_RollNo (records : list Row) (rollno : string)
  : result (list Row) :=
  match records with
  | [] => Ok []
  | row :: rest =>
      x ←! getitem row "RollNo";
      filtered ←! filter_RollNo rest rollno;
      Ok (if decide (x ≠ rollno) then row :: filtered else filtered)
  end.

Definition remove_data (e : env) (rollno : string) (fs : store)
  : outcome * store :=
  let records := read_csv e fs in
  match filter_RollNo records rollno with
  | Raise ex => (Raised ex, fs)
  | Ok filtered_records =>
      if decide (length records = length filtered_records)
      then (Reply (Error "Record not found") 404, fs)
      else
        let '(ok, fs') := write_csv e filtered_records fs in
        if ok then (Reply (Message "Record deleted successfully") 200, fs')
        else (Reply (Error "Failed to delete record") 500, fs')
  end.

(** ** update_data *)

(** The [for] loop: the records after the in-place updates, and the flag
    [updated].  [row.update(data)] is the union that prefers [data]; the
    values of [data] are kept as the text [write_csv] will write. *)
Fixpoint update_rows (records : list Row) (data : gmap string json)
  : result (list Row * bool) :=
  match records with
  | [] => Ok ([], false)
  | row :: rest =>
      x ←! getitem row "RollNo";
      v ←! getitem data "RollNo";
      let hit := bool_decide (JStr x = v) in
      '(rest', updated) ←! update_rows rest data;
      Ok ((if hit then (csv_text <$> data) ∪ row else row) :: rest',
          hit || updated)
  end.

Definition update_data (e : env) (data : gmap string json) (fs : store)
  : outcome * store :=
  let records := read_csv e fs in
  match update_rows records data with
  | Raise ex => (Raised ex, fs)
  | Ok (records, updated) =>
      if negb updated
      then
        (* the warning formats data['RollNo'] *)
        match getitem data "RollNo" with
        | Raise ex => (Raised ex, fs)
        | Ok _ => (Reply (Error "Record not found") 404, fs)
        end
      else
        let '(ok, fs') := write_csv e records fs in
        if ok then (Reply (Message "Record updated successfully") 200, fs')
        else (Reply (Error "Failed to update record") 500, fs')
  end.

(** ** read_data *)

(** The [for] loop of [read_data]: the first row with this RollNo. *)
Fixpoint find_RollNo (records : list Row) (rollno : string)
  : result (option Row) :=
  match records with
  | [] => Ok None
  | row :: rest =>
      x ←! getitem row "RollNo";
      if decide (x = rollno) then Ok (Some row) else find_RollNo rest rollno
  end.

(** [rollno] is [request.args.get("RollNo")]; [None] and the empty string
    are false. *)
Definition read_data (e : env) (rollno : option string) (fs : store) : outcome :=
  match rollno with
  | Some (String c s) =>
      match find_RollNo (read_csv e fs) (String c s) with
      | Raise ex => Raised ex
      | Ok (Some row) => Reply (RowBody row) 200
      | Ok None => Reply (Error "Record not found") 404
      end
  | _ => Reply (Template "read.html") 200
  end.

(** ** Floating point: round(x, 2) *)

(** [num / den] rounded to the nearest integer, ties to the even one
    ([num] not negative, [den] positive). *)
Definition half_even (num den : Z) : Z :=
  let q := (num / den)%Z in
  let r := (num mod den)%Z in
  match (2 * r ?= den)%Z with
  | Lt => q
  | Gt => (q + 1)%Z
  | Eq => if Z.even q then q else (q + 1)%Z
  end.

(** [p / (q * 2^e)] as a fraction of integers. *)
Definition scaled (p q e : Z) : Z * Z :=
  if (0 <=? e)%Z then (p, (q * 2 ^ e)%Z) else ((p * 2 ^ (- e))%Z, q).

(** The binary64 number nearest to [p / q], ties to even: what [strtod]
    returns for a decimal numeral of that value ([p] not negative, [q]
    positive). *)
Definition nearest_float (p q : Z) : float :=
  if (p =? 0)%Z then 0%float
  else
    let e1 := (Z.log2 p - Z.log2 q - 52)%Z in
    let '(n1, d1) := scaled p q e1 in
    let e2 := if (n1 / d1 <? 2 ^ 52)%Z then (e1 - 1)%Z else e1 in
    let e := Z.max e2 (-1074) in
    let '(n, d) := scaled p q e in
    Z.ldexp (of_uint63 (Uint63.of_Z (half_even n d))) e.

(** [round(x, 2)] on a float: infinities and NaN round to themselves; a
    finite [x] is rounded, from its exact value, to the nearest multiple
    of 1/100 (ties to even), and the float nearest to that decimal is
    returned, with the sign of [x]. *)
Definition py_round2 (x : float) : float :=
  match Prim2SF x with
  | S754_finite s m e =>
      if (0 <=? e)%Z then x
      else
        let r := nearest_float (half_even (Z.pos m * 100) (2 ^ (- e))) 100 in
        if s then (- r)%float else r
  | _ => x
  end.

(** ** calculate_avg and average *)

(** [l[start:stop]] *)
Definition py_slice {A : Type} (l : list A) (start stop : Z) : list A :=
  let n := Z.of_nat (length l) in
  let clamp i := if (i <? 0)%Z then Z.max (i + n) 0 else Z.min i n in
  let a := clamp start in
  let b := clamp stop in
  take (Z.to_nat (b - a)) (drop (Z.to_nat a) l).

(** [range(n)] *)
Definition range (n : Z) : list Z := Z.of_nat <$> seq 0 (Z.to_nat n).

Section Average.

(** Python's [float] on a string: the number it denotes, or [None] when
    it raises ValueError. *)
Variable py_float : string → option float.

(** [float(row[field])], [None] when it raises (a missing key, a text
    that is not a number). *)
Definition mark (row : Row) (field : string) : option float :=
  row !! field ≫= py_float.

(** The [try] block of [calculate_avg]: any exception in it gives the
    integer 0. *)
Definition row_avg (row : Row) : number :=
  let tried :=
    english ← mark row "English";
    maths ← mark row "Maths";
    science ← mark row "Science";
    let avg := ((english + maths + science) / 3)%float in
    Some (py_round2 avg) in
  match tried with
  | Some avg => PyFloat avg
  | None => PyInt 0
  end.

(** The list the worker puts on the queue; the worker dies with the
    KeyError, and puts nothing, when a row has no RollNo or no Name. *)
Fixpoint calculate_avg (records : list Row) : result (list avg_entry) :=
  match records with
  | [] => Ok []
  | row :: rest =>
      let avg := row_avg row in
      rollno ←! getitem row "RollNo";
      name ←! getitem row "Name";
      student_avg ←! calculate_avg rest;
      Ok ({| RollNo := rollno; Name := name; Average := avg |} :: student_avg)
  end.

(** The slices handed to the threads, in the order the threads are
    started. *)
Definition chunks (records : list Row) (record_per_thread : Z)
  : list (list Row) :=
  let num_records := Z.of_nat (length records) in
  let num_thread := (num_records / record_per_thread + 1)%Z in
  (λ i, let start := (i * record_per_thread)%Z in
        let stop := Z.min (start + record_per_thread) num_records in
        py_slice records start stop) <$> range num_thread.

(** The queue once every thread is joined: the workers that did not die
    have each put their list, in the order [sched] in which they
    finished. *)
Definition result_queue (sched : list nat)
    (workers : list (result (list avg_entry))) : list (list avg_entry) :=
  omap (λ t, match workers !! t with
             | Some (Ok student_avg) => Some student_avg
             | _ => None
             end) sched.

(** [average]: [record_per_thread] is [config.get("thread_size", 10)].
    The [return] is inside the [while] loop, so the reply is built from
    the first list taken from the queue; with an empty queue the function
    falls off its end and Flask raises TypeError. *)
Definition average (e : env) (record_per_thread : Z) (sched : list nat)
    (fs : store) : outcome :=
  let records := read_csv e fs in
  if (record_per_thread =? 0)%Z then Raised ZeroDivisionError
  else
    let workers := calculate_avg <$> chunks records record_per_thread in
    match result_queue sched workers with
    | [] => Raised TypeError
    | student_avg :: _ => Reply (Averages ([] ++ student_avg)) 200
    end.

End Average.

(** The default of [config.get("thread_size", 10)]. *)
Definition default_thread_size : Z := 10.

(** ** A parser for plain decimal numerals

    [decimal_float] reads an optional sign, digits, and an optional point
    followed by digits, and returns the nearest binary64 number, as
    Python's [float] does on such a string.  It is the instance of
    [py_float] used where a statement needs concrete marks. *)

Definition digit_of (c : ascii) : option Z :=
  let n := Z.of_N (N_of_ascii c) in
  if ((48 <=? n) && (n <=? 57))%Z then Some (n - 48)%Z else None.

(** The digits at the head of [s], read after the digits already in
    [acc]: the number, how many digits were read, and the rest. *)
Fixpoint read_digits (s : string) (acc : Z) : Z * nat * string :=
  match s with
  | String c rest =>
      match digit_of c with
      | Some d =>
          let '(v, n, r) := read_digits rest (10 * acc + d)%Z in (v, S n, r)
      | None => (acc, O, s)
      end
  | EmptyString => (acc, O, s)
  end.

Definition decimal_float (s : string) : option float :=
  let '(neg, s1) :=
    match s with
    | String "-"%char r => (true, r)
    | String "+"%char r => (false, r)
    | _ => (false, s)
    end in
  let '(i, ni, s2) := read_digits s1 0 in
  let '(m, nf, s3) :=
    match s2 with
    | String "."%char r => read_digits r i
    | _ => (i, O, s2)
    end in
  if (ni + nf =? 0)%nat || negb (String.eqb s3 "") then None
  else
    let f := nearest_float m (10 ^ Z.of_nat nf) in
    Some (if neg then (- f)%float else f).

(** A record with the five columns. *)
Definition student (rollno name english maths science : string) : Row :=
  <["RollNo" := rollno]> (<["Name" := name]> (<["English" := english]>
    (<["Maths" := maths]> (<["Science" := science]> ∅)))).

(** ** Well-formed stores *)

(** The row has exactly the columns of [csv_header], as every row read
    from a file whose header line is [csv_header]. *)
Definition has_header (row : Row) : Prop :=
  dom row = list_to_set csv_header.

#[global] Instance has_header_dec row : Decision (has_header row).
Proof. unfold has_header. apply _. Defined.

(** The RollNo column. *)
Definition rollnos (rows : list Row) : list (option string) :=
  (λ row : Row, row !! "RollNo") <$> rows.

(** Some record of [rows] has this RollNo. *)
Definition present (rollno : string) (rows : list Row) : Prop :=
  Some rollno ∈ rollnos rows.

#[global] Instance present_dec rollno rows : Decision (present rollno rows).
Proof. unfold present. apply _. Defined.

(** The RollNo values of the stored records are pairwise distinct. *)
Definition unique_RollNo (fs : store) : Prop := NoDup (rollnos (stored fs)).

#[global] Instance unique_RollNo_dec fs : Decision (unique_RollNo fs).
Proof. unfold unique_RollNo. apply _. Defined.

(** The row has the two columns that [calculate_avg] copies. *)
Definition named (row : Row) : Prop :=
  is_Some (row !! "RollNo") ∧ is_Some (row !! "Name").

(** ** Sample data *)

(** A record with marks 1, 0 and 0. *)
Definition cara : Row := student "3" "Cara" "1" "0" "0".

(** A record whose English mark is not a number. *)
Definition dan : Row := student "4" "Dan" "absent" "60" "70".

(** Eleven records, one more than the default [thread_size]. *)
Definition eleven : list Row :=
  (λ rollno, student rollno "Student" "60" "70" "80")
    <$> ["1"; "2"; "3"; "4"; "5"; "6"; "7"; "8"; "9"; "10"; "11"].

Definition ann : Row := student "1" "Ann" "61" "72" "83".
Definition bob : Row := student "2" "Bob" "50" "60" "70".

(** The request that changes Bob's Maths mark. *)
Definition bob_maths : gmap string json :=
  <["RollNo" := JStr "2"]> (<["Maths" := JStr "65"]> ∅).

(** An environment in which the file cannot be opened for writing. *)
Definition read_only : env :=
  {| read_raises := false; write_fault := Some OpenFails |}.

(** An environment in which reading the file raises. *)
Definition unreadable : env :=
  {| read_raises := true; write_fault := None |}.

(** ** The forms *)

Inductive method :=
  | GET
  | POST.

(** The HTTP layer between a form and the handler it calls through
    [requests]: whether the DELETE built by [url_for] for this RollNo is
    routed to [remove_data] and answered, and whether the PUT to
    [update_data] is.  When it is not (no connection, or a URL the route
    does not match), the call raises or gets a page that is not JSON. *)
Record http := {
  reaches_remove : string → bool;
  reaches_update : bool
}.

(** [response.json()] on what this application answers for an outcome: the
    body of a JSON reply; decoding raises on a rendered template and on the
    error page Flask makes of an escaped exception. *)
Definition response_json (o : outcome) : result body :=
  match o with
  | Reply (Template _) _ => Raise ValueError
  | Reply b _ => Ok b
  | Raised _ => Raise ValueError
  end.

(** [remove_form]: [rollno] is [request.form.get("RollNo")].  The dict
    that [response.json()] returns is sent with status 200. *)
Definition remove_form (e : env) (h : http) (m : method)
    (rollno : option string) (fs : store) : outcome * store :=
  match m, rollno with
  | POST, Some (String c s) =>
      if reaches_remove h (String c s)
      then
        let '(response, fs') := remove_data e (String c s) fs in
        match response_json response with
        | Ok b => (Reply b 200, fs')
        | Raise _ => (Reply (Error "Failed to process request") 500, fs')
        end
      else (Reply (Error "Failed to process request") 500, fs)
  | _, _ => (Reply (Template "remove.html") 200, fs)
  end.

(** [update_form]: [data] is [request.form.to_dict()], sent as the JSON
    body of the PUT. *)
Definition update_form (e : env) (h : http) (m : method)
    (data : Row) (fs : store) : outcome * store :=
  match m with
  | POST =>
      if reaches_update h
      then
        let '(response, fs') := update_data e (JStr <$> data) fs in
        match response_json response with
        | Ok b => (Reply b 200, fs')
        | Raise _ => (Reply (Error "Failed to process request") 500, fs')
        end
      else (Reply (Error "Failed to process request") 500, fs)
  | GET => (Reply (Template "update.html") 200, fs)
  end.

(** An HTTP layer that delivers every request. *)
Definition delivering : http :=
  {| reaches_remove := λ _, true; reaches_update := true |}.

(** ** The bytes of the file

    [write_csv] sends the header line and one line per row to a buffered
    file; when the device fails, the file keeps the bytes it took, which
    can end inside a line.  This part models that text for ASCII fields
    that [csv.writer] writes without quotes, and what [csv.DictReader]
    reads from an ASCII text that has no quote character; what is outside
    is [None]. *)

Definition CR : ascii := "013"%char.
Definition LF : ascii := "010"%char.
Definition quote_char : ascii := "034"%char.

(** An ASCII character other than NUL. *)
Definition ascii_char (c : ascii) : bool :=
  let n := N_of_ascii c in ((0 <? n) && (n <? 128))%N.

(** A character that does not make [csv.writer] quote the field. *)
Definition plain_char (c : ascii) : bool :=
  ascii_char c &&
  negb (Ascii.eqb c ","%char || Ascii.eqb c quote_char
        || Ascii.eqb c CR || Ascii.eqb c LF).

Fixpoint plain (s : string) : bool :=
  match s with
  | EmptyString => true
  | String c rest => plain_char c && plain rest
  end.

(** [writer.writerow(fields)]: the fields joined by commas and ended by
    CR LF.  A field with a comma, a quote, CR or LF is quoted, and so is
    the empty field of a one-field row: those rows are outside. *)
Definition csv_line (fields : list string) : option string :=
  if forallb plain fields && negb (bool_decide (fields = [""]))
  then Some (String.concat "," fields +:+ String CR (String LF ""))
  else None.

(** The text of a whole write: [writeheader] then [writerows]. *)
Definition file_text (row : list Row) : option string :=
  header ← csv_line csv_header;
  lines ← mapM (λ rowdict : Row,
                  match dict_to_list rowdict with
                  | Ok fields => csv_line fields
                  | Raise _ => None
                  end) row;
  Some (header +:+ String.concat "" lines).

(** The first [k] bytes of a text: what the file holds when the device
    stops there. *)
Definition cut (k : nat) (text : string) : string := String.substring 0 k text.

(** [csv.reader] on an ASCII text without quotes: a line ends at CR, LF
    or CR LF and is cut at its commas; an empty line gives the empty row;
    the last line needs no end.  [after_cr] tells that the previous character was a
    CR, [started] that the current line has begun, [fields] and [field]
    hold what was read of it. *)
Fixpoint csv_reader (text : string) (after_cr started : bool)
    (fields : list string) (field : string) : option (list (list string)) :=
  let this_row := if started then fields ++ [field] else [] in
  match text with
  | EmptyString => Some (if started then [this_row] else [])
  | String c rest =>
      if Ascii.eqb c quote_char || negb (ascii_char c) then None
      else if Ascii.eqb c LF then
        if after_cr then csv_reader rest false false [] ""
        else (this_row ::.) <$> csv_reader rest false false [] ""
      else if Ascii.eqb c CR then
        (this_row ::.) <$> csv_reader rest true false [] ""
      else if Ascii.eqb c ","%char then
        csv_reader rest false true (fields ++ [field]) ""
      else csv_reader rest false true fields (field +:+ String c "")
  end.

(** The dict [csv.DictReader] makes of a row: the columns past the end of
    the row are [None]; a row longer than the header is outside. *)
Definition reader_dict (fieldnames row : list string)
  : option (gmap string (option string)) :=
  if (length fieldnames <? length row)%nat then None
  else Some (list_to_map (reverse (zip fieldnames
               ((Some <$> row)
                ++ replicate (length fieldnames - length row) None)))).

(** [list(csv.DictReader(file))]: the first row is the header, the empty
    rows after it are skipped. *)
Definition dict_reader (text : string)
  : option (list (gmap string (option string))) :=
  rows ← csv_reader text false false [] "";
  match rows with
  | [] => Some []
  | fieldnames :: rest =>
      mapM (reader_dict fieldnames) (filter (λ row, row ≠ []) rest)
  end.


(** A record whose RollNo begins like Ann's. *)
Definition tom : Row := student "12" "Tom" "40" "50" "60".

(** An environment in which the write fails after the first row. *)
Definition full_after_one : env :=
  {| read_raises := false; write_fault := Some (WriteFailsAfter 1) |}.

(** ** update_data on any JSON body *)

(** [request.json] in [update_data]: a JSON object, or another JSON value
    (a list, a string, a number, a boolean, null). *)
Inductive json_body :=
  | JObject (data : gmap string json)
  | JNotObject.

(** [update_data] for every JSON body.  On a value that is not an object
    [data["RollNo"]] raises TypeError: in the loop, once [row["RollNo"]]
    of the first row is read, or in the warning when there is no row. *)
Definition update_data_json (e : env) (body : json_body) (fs : store)
  : outcome * store :=
  match body with
  | JObject data => update_data e data fs
  | JNotObject =>
      match read_csv e fs with
      | row :: _ =>
          match getitem row "RollNo" with
          | Ok _ => (Raised TypeError, fs)
          | Raise ex => (Raised ex, fs)
          end
      | [] => (Raised TypeError, fs)
      end
  end.

(** The fields of the row are text that the csv writer copies as it is:
    no comma, quote, line break or character outside ASCII. *)
Definition plain_row (row : Row) : Prop :=
  map_Forall (λ _ v, plain v = true) row.

#[global] Instance plain_row_dec row : Decision (plain_row row).
Proof. unfold plain_row. apply _. Defined.

(** * Properties *)

(** Closes a decidable goal about concrete data by evaluating its decision
    procedure. *)
Ltac by_compute := apply (bool_decide_unpack _); vm_compute; exact I.

(** ** Reading and writing *)

Lemma read_csv_stored e fs : read_raises e = false → read_csv e fs = stored fs.
Proof. intros Hr. unfold read_csv, stored. destruct fs; simpl; by rewrite ?Hr. Qed.

Lemma read_csv_empty e fs : fs = None ∨ read_raises e = true → read_csv e fs = [].
Proof. intros [-> | Hr]; [done |]. unfold read_csv. destruct fs; by rewrite ?Hr. Qed.

Lemma header_set :
  list_to_set csv_header
  = ({["RollNo"]} ∪ ({["Name"]} ∪ ({["English"]} ∪ ({["Maths"]} ∪ ({["Science"]} ∪ ∅))))
     : gset string).
Proof. reflexivity. Qed.

Lemma as_read_has_header a b c d f : has_header (as_read [a; b; c; d; f]).
Proof.
  unfold has_header. rewrite header_set. unfold as_read, csv_header.
  cbn [zip zip_with list_to_map foldr uncurry fst snd].
  by rewrite !dom_insert_L, dom_empty_L.
Qed.

Lemma dict_to_list_fields rowdict fields :
  dict_to_list rowdict = Ok fields →
  fields = (λ key, default "" (rowdict !! key)) <$> csv_header.
Proof. unfold dict_to_list. case_decide; congruence. Qed.

(** A row with the five columns is written and read back unchanged. *)
Lemma dict_to_list_has_header row :
  has_header row → ∃ fields, dict_to_list row = Ok fields ∧ as_read fields = row.
Proof.
  intros Hrow. unfold dict_to_list. rewrite decide_True by (by rewrite Hrow).
  eexists; split; [done |].
  apply map_eq. intros key.
  assert (Hin : ∀ k, k ∈ csv_header → row !! k = Some (default "" (row !! k))).
  { intros k Hk. assert (Hd : k ∈ dom row) by (rewrite Hrow; by apply elem_of_list_to_set).
    apply elem_of_dom in Hd as [x Hx]. by rewrite Hx. }
  assert (Hout : key ∉ csv_header → row !! key = None).
  { intros Hk. apply not_elem_of_dom. rewrite Hrow. by rewrite elem_of_list_to_set. }
  unfold as_read. unfold csv_header at 1 2.
  cbn [zip zip_with list_to_map foldr uncurry fst snd fmap list_fmap].
  repeat (rewrite lookup_insert; case_decide;
          [subst key; symmetry; apply Hin; unfold csv_header;
           rewrite !elem_of_cons; tauto |]).
  rewrite lookup_empty. symmetry. apply Hout. unfold csv_header.
  rewrite !elem_of_cons, elem_of_nil. intros Hk.
  repeat (destruct Hk as [-> | Hk]; [done |]). done.
Qed.

(** Rows with the five columns are all written when the device takes them. *)
Lemma writerows_has_header rows :
  Forall has_header rows → writerows None rows = (rows, None).
Proof.
  induction 1 as [| row rows Hrow _ IH]; [done |]. simpl.
  destruct (dict_to_list_has_header row Hrow) as (fields & -> & Hf).
  rewrite IH. by rewrite Hf.
Qed.

(** Whatever reaches the file has the five columns. *)
Lemma writerows_written room rows :
  Forall has_header (writerows room rows).1.
Proof.
  revert room. induction rows as [| row rows IH]; intros room; simpl; [constructor |].
  destruct (dict_to_list row) as [fields |] eqn:Hd; [| constructor].
  apply dict_to_list_fields in Hd. subst fields.
  assert (Hgo : Forall has_header
    (let '(written, ex) := writerows (Nat.pred <$> room) rows in
     (as_read ((λ key, default "" (row !! key)) <$> csv_header) :: written, ex)).1).
  { specialize (IH (Nat.pred <$> room)).
    destruct (writerows (Nat.pred <$> room) rows) as [written ex]. simpl in *.
    constructor; [apply as_read_has_header | done]. }
  destruct room as [[| n] |]; [constructor | exact Hgo | exact Hgo].
Qed.

(** When no exception stops it, [writerows] has written every row, as
    [dict_to_list] renders it. *)
Lemma writerows_complete room rows written :
  writerows room rows = (written, None) →
  Forall (λ row, dom row ⊆ list_to_set csv_header) rows ∧
  written = written_row <$> rows.
Proof.
  revert room written. induction rows as [| row rows IH]; intros room written; simpl.
  - intros [= <-]. by split.
  - unfold dict_to_list at 1. case_decide as Hdom; [| done].
    intros Hw.
    assert (Hgo : (let '(written, ex) := writerows (Nat.pred <$> room) rows in
       (as_read ((λ key, default "" (row !! key)) <$> csv_header) :: written, ex))
       = (written, None)).
    { destruct room as [[| n] |]; [done | exact Hw | exact Hw]. }
    clear Hw. destruct (writerows (Nat.pred <$> room) rows) as [w ex] eqn:Hrec.
    injection Hgo as <- ->. destruct (IH _ _ Hrec) as [Hall ->].
    split; [by constructor | done].
Qed.

Lemma written_row_has_header row : has_header row → written_row row = row.
Proof.
  intros Hrow. destruct (dict_to_list_has_header row Hrow) as (fields & Hd & Hf).
  apply dict_to_list_fields in Hd. unfold written_row. by rewrite <- Hd.
Qed.

Lemma written_rows_has_header rows :
  Forall has_header rows → written_row <$> rows = rows.
Proof.
  induction 1 as [| row rows Hrow _ IH]; [done |].
  by rewrite fmap_cons, written_row_has_header, IH.
Qed.

(** [write_csv] returns False exactly when its [try] block raises, and
    leaves the file the block leaves. *)
Lemma write_csv_catches e rows fs :
  write_csv e rows fs
  = (bool_decide ((write_csv_try e rows fs).1 = None), (write_csv_try e rows fs).2).
Proof.
  unfold write_csv. by destruct (write_csv_try e rows fs) as [[ex |] fs'].
Qed.

Lemma write_csv_calm e rows fs :
  write_fault e = None → Forall has_header rows →
  write_csv e rows fs = (true, Some rows).
Proof.
  intros He Hrows. unfold write_csv, write_csv_try. rewrite He.
  by rewrite writerows_has_header.
Qed.

(** A write that reports success has written every row. *)
Lemma write_csv_true e rows fs fs' :
  write_csv e rows fs = (true, fs') →
  Forall (λ row, dom row ⊆ list_to_set csv_header) rows ∧
  fs' = Some (written_row <$> rows).
Proof.
  unfold write_csv, write_csv_try.
  destruct (write_fault e) as [[| n] |]; [done | |].
  - destruct (writerows (Some n) rows) as [written [ex |]] eqn:Hw; [done |].
    intros [= <-]. apply writerows_complete in Hw as [? ->]. by split.
  - destruct (writerows None rows) as [written [ex |]] eqn:Hw; [done |].
    intros [= <-]. apply writerows_complete in Hw as [? ->]. by split.
Qed.

(** Whether or not it fails, a write leaves a file whose rows have the five
    columns. *)
Lemma write_csv_keeps_header e rows fs :
  Forall has_header (stored fs) → Forall has_header (stored (write_csv e rows fs).2).
Proof.
  intros Hfs. rewrite write_csv_catches. cbn [snd]. unfold write_csv_try.
  destruct (write_fault e) as [[| n] |]; [done | |].
  - pose proof (writerows_written (Some n) rows) as Hw.
    by destruct (writerows (Some n) rows).
  - pose proof (writerows_written None rows) as Hw.
    by destruct (writerows None rows).
Qed.

(** ** Scanning the RollNo column *)

Lemma has_header_field row field :
  has_header row → field ∈ csv_header → is_Some (row !! field).
Proof.
  intros Hrow Hf. apply elem_of_dom. rewrite Hrow. by apply elem_of_list_to_set.
Qed.

Lemma has_header_RollNo row : has_header row → is_Some (row !! "RollNo").
Proof.
  intros Hrow. apply has_header_field; [done |].
  unfold csv_header. rewrite !elem_of_cons. tauto.
Qed.

Lemma Forall_has_header_RollNo rows :
  Forall has_header rows → Forall (λ row : Row, is_Some (row !! "RollNo")) rows.
Proof. intros H. eapply Forall_impl; [exact H |]. apply has_header_RollNo. Qed.

Lemma present_cons rollno row rows :
  present rollno (row :: rows) ↔
  row !! "RollNo" = Some rollno ∨ present rollno rows.
Proof.
  unfold present, rollnos. rewrite fmap_cons, elem_of_cons.
  split; (intros [Heq | Hin]; [left | by right]); congruence.
Qed.

Lemma present_nil rollno : ¬ present rollno [].
Proof. unfold present, rollnos. apply not_elem_of_nil. Qed.

Lemma present_exists rollno rows :
  present rollno rows ↔ ∃ row, row ∈ rows ∧ row !! "RollNo" = Some rollno.
Proof.
  unfold present, rollnos. rewrite list_elem_of_fmap. split.
  - intros (r & Hr & Hin). eauto.
  - intros (r & Hin & Hr). eauto.
Qed.

(** On rows that all have a RollNo, [any] finds whether one equals
    [rollno]. *)
Lemma any_RollNo_present rows rollno :
  Forall (λ row : Row, is_Some (row !! "RollNo")) rows →
  ∃ b : bool, any_RollNo rows rollno = Ok b ∧ (b = true ↔ present rollno rows).
Proof.
  induction 1 as [| row rows [x Hx] _ (b & IH & Hb)]; simpl.
  - exists false. split; [done |]. split; [done |]. by intros ?%present_nil.
  - unfold getitem. rewrite Hx. simpl. case_decide as Heq.
    + exists true. split; [done |]. split; [| done]. intros _.
      apply present_cons. left. by rewrite Hx, Heq.
    + exists b. split; [done |]. rewrite Hb, present_cons, Hx.
      split; [tauto |]. intros [[= ?] | ?]; [done | tauto].
Qed.


(** ** insert_data *)

Lemma all_fields_forallb (data : Row) :
  (∀ field, field ∈ csv_header → is_Some (data !! field)) ↔
  forallb (λ field, bool_decide (is_Some (data !! field))) csv_header = true.
Proof.
  rewrite forallb_forall. split.
  - intros H field Hin. apply bool_decide_eq_true_2, H. by apply list_elem_of_In.
  - intros H field Hin. eapply bool_decide_eq_true_1, H. by apply list_elem_of_In.
Qed.

(** A request with the five fields and no other has the header. *)
Lemma all_fields_has_header (data : Row) :
  (∀ field, field ∈ csv_header → is_Some (data !! field)) →
  dom data ⊆ list_to_set csv_header → has_header data.
Proof.
  intros Hall Hsub. unfold has_header. apply set_eq. intros key. split.
  - apply Hsub.
  - rewrite elem_of_list_to_set, elem_of_dom. apply Hall.
Qed.

(** C3: an insert request whose RollNo is the RollNo of a record already in
    the store is rejected with status 400 and an error message, and the
    file is left as it was.  (The file can be read and its rows have the
    columns of [csv_header].) *)
Theorem insert_duplicate_rejected e (data : Row) fs rollno :
  read_raises e = false →
  Forall has_header (stored fs) →
  data !! "RollNo" = Some rollno →
  present rollno (stored fs) →
  (∃ msg, (insert_data e data fs).1 = Reply (Error msg) 400) ∧
  (insert_data e data fs).2 = fs.
Proof.
  intros Hread Hwf Hdata Hpresent. unfold insert_data.
  destruct (forallb _ csv_header); simpl; [| eauto].
  rewrite read_csv_stored by done. rewrite Hdata. simpl.
  destruct (any_RollNo_present (stored fs) rollno) as (b & -> & Hb);
    [by apply Forall_has_header_RollNo |].
  apply Hb in Hpresent as ->. eauto.
Qed.

(** C3 at work: inserting a second record with RollNo 7. *)
Lemma insert_duplicate_rejected_witness :
  (∃ msg, (insert_data calm (student "7" "Ann" "61" "72" "83")
             (Some [student "7" "Bob" "50" "60" "70"])).1
          = Reply (Error msg) 400) ∧
  (insert_data calm (student "7" "Ann" "61" "72" "83")
     (Some [student "7" "Bob" "50" "60" "70"])).2
  = Some [student "7" "Bob" "50" "60" "70"].
Proof.
  apply (insert_duplicate_rejected calm (student "7" "Ann" "61" "72" "83")
           (Some [student "7" "Bob" "50" "60" "70"]) "7").
  - reflexivity.
  - repeat constructor.
  - reflexivity.
  - by_compute.
Defined.

(** C4: for an insert request that has the five fields and whose RollNo is
    not in the store, an insert that answers 201 has left the old records
    followed by the new record; and the insert does answer 201, with that
    file, when writing raises nothing and the request has no field besides
    the five. *)
Theorem insert_appends e (data : Row) fs :
  read_raises e = false →
  Forall has_header (stored fs) →
  (∀ field, field ∈ csv_header → is_Some (data !! field)) →
  (∀ rollno, data !! "RollNo" = Some rollno → ¬ present rollno (stored fs)) →
  (status_of (insert_data e data fs).1 = Some 201%Z →
     (insert_data e data fs).2 = Some (stored fs ++ [data])) ∧
  (write_fault e = None → has_header data →
     insert_data e data fs
     = (Reply (Message "Record inserted successfully") 201, Some (stored fs ++ [data]))).
Proof.
  intros Hread Hwf Hall Hfresh. unfold insert_data.
  rewrite (proj1 (all_fields_forallb data) Hall). cbn [negb].
  rewrite read_csv_stored by done.
  destruct (Hall "RollNo") as [rollno Hr];
    [unfold csv_header; rewrite !elem_of_cons; tauto |].
  rewrite Hr. change (default "" (Some rollno)) with rollno.
  destruct (any_RollNo_present (stored fs) rollno) as (b & -> & Hb);
    [by apply Forall_has_header_RollNo |].
  destruct b; [exfalso; apply (Hfresh rollno Hr); by apply Hb |].
  split.
  - destruct (write_csv e (stored fs ++ [data]) fs) as [[|] fs'] eqn:Hw; [| done].
    intros _. cbn [snd]. apply write_csv_true in Hw as [Hdom ->].
    rewrite written_rows_has_header; [done |].
    apply Forall_app. split; [done |]. constructor; [| constructor].
    apply all_fields_has_header; [done |].
    apply Forall_app in Hdom as [_ Hdom]. by apply Forall_cons in Hdom as [? _].
  - intros He Hdata. rewrite write_csv_calm; [done | done |].
    apply Forall_app. split; [done |]. by repeat constructor.
Qed.

(** C4 at work: inserting Bob after Ann. *)
Lemma insert_appends_witness :
  insert_data calm bob (Some [ann])
  = (Reply (Message "Record inserted successfully") 201, Some ([ann] ++ [bob])).
Proof.
  apply (insert_appends calm bob (Some [ann])).
  - reflexivity.
  - repeat constructor.
  - apply all_fields_forallb. reflexivity.
  - intros rollno Hr.
    assert (rollno = "2") as -> by (vm_compute in Hr; congruence).
    by_compute.
  - reflexivity.
  - reflexivity.
Defined.

(** ** remove_data *)

(** On rows that all have a RollNo, the comprehension is a filter. *)
Lemma filter_RollNo_filter rows rollno :
  Forall (λ row : Row, is_Some (row !! "RollNo")) rows →
  filter_RollNo rows rollno
  = Ok (filter (λ row : Row, row !! "RollNo" ≠ Some rollno) rows).
Proof.
  induction 1 as [| row rows [x Hx] _ IH]; [done |].
  cbn [filter_RollNo]. unfold getitem. rewrite Hx, IH. cbn [bind].
  case_decide as Hne.
  - rewrite filter_cons_True; [done |]. rewrite Hx. congruence.
  - rewrite filter_cons_False; [done |]. rewrite Hx. intros Hn.
    apply Hn. f_equal. by destruct (decide (x = rollno)).
Qed.


(** The filter keeps the length exactly when no row has the RollNo. *)
Lemma filter_length_present rows rollno :
  length rows = length (filter (λ row : Row, row !! "RollNo" ≠ Some rollno) rows)
  ↔ ¬ present rollno rows.
Proof.
  split.
  - intros Hlen (row & Hin & Hrow)%present_exists.
    pose proof (length_filter_lt (λ row : Row, row !! "RollNo" ≠ Some rollno)
                  rows row Hin) as Hlt.
    cbv beta in Hlt. rewrite <- Hlen in Hlt.
    assert (length rows < length rows) by (apply Hlt; by intros []). lia.
  - intros Hno. induction rows as [| row rows IH]; [done |].
    rewrite filter_cons_True.
    + simpl. f_equal. apply IH. intros Hp. apply Hno, present_cons. by right.
    + intros Hrow. apply Hno, present_cons. by left.
Qed.

(** ** update_data *)


(** On rows that all have a RollNo, the loop sets [updated] exactly when a
    row has the RollNo of the request. *)
Lemma update_rows_updated rows (data : gmap string json) rollno :
  Forall (λ row : Row, is_Some (row !! "RollNo")) rows →
  data !! "RollNo" = Some (JStr rollno) →
  ∃ rows' updated, update_rows rows data = Ok (rows', updated) ∧
    (updated = true ↔ present rollno rows).
Proof.
  intros Hall Hv. induction Hall as [| row rows [x Hx] _ (rows' & u & IH & Hu)].
  - exists [], false. split; [done |]. split; [done |]. by intros ?%present_nil.
  - cbn [update_rows]. unfold getitem. rewrite Hx, Hv, IH. cbn [bind].
    eexists _, _. split; [done |].
    rewrite present_cons, Hx, orb_true_iff, Hu, bool_decide_eq_true.
    split; (intros [Heq | ?]; [left | by right]); congruence.
Qed.

(** ** Not found *)

(** C5: when no stored record has the RollNo, [remove_data] and
    [update_data] answer 404 "Record not found" and leave the file as it
    was; when some stored record has it, neither answers 404.  So each
    answers 404 exactly when no stored record has that RollNo. *)
Theorem not_found_iff_absent e fs rollno :
  read_raises e = false →
  Forall has_header (stored fs) →
  (¬ present rollno (stored fs) →
     remove_data e rollno fs = (Reply (Error "Record not found") 404, fs)) ∧
  (present rollno (stored fs) →
     status_of (remove_data e rollno fs).1 ≠ Some 404%Z) ∧
  (∀ data : gmap string json, data !! "RollNo" = Some (JStr rollno) →
     (¬ present rollno (stored fs) →
        update_data e data fs = (Reply (Error "Record not found") 404, fs)) ∧
     (present rollno (stored fs) →
        status_of (update_data e data fs).1 ≠ Some 404%Z)).
Proof.
  intros Hread Hwf. apply Forall_has_header_RollNo in Hwf.
  split; [| split].
  - intros Hno. unfold remove_data. rewrite read_csv_stored by done.
    rewrite filter_RollNo_filter by done.
    by rewrite decide_True by by apply filter_length_present.
  - intros Hp. unfold remove_data. rewrite read_csv_stored by done.
    rewrite filter_RollNo_filter by done.
    rewrite decide_False by (by rewrite filter_length_present; intros []).
    destruct (write_csv e _ fs) as [[|] fs']; simpl; congruence.
  - intros data Hv. unfold update_data. rewrite read_csv_stored by done.
    destruct (update_rows_updated (stored fs) data rollno Hwf Hv)
      as (rows' & u & -> & Hu).
    unfold getitem. rewrite Hv. split.
    + intros Hno. destruct u; [by destruct Hno; apply Hu |]. done.
    + intros Hp. apply Hu in Hp as ->. cbn [negb].
      destruct (write_csv e rows' fs) as [[|] fs']; simpl; congruence.
Qed.

(** C5 at work: RollNo 9 is absent from the store of Ann and Bob, RollNo 2
    is present. *)
Lemma not_found_iff_absent_witness :
  remove_data calm "9" (Some [ann; bob])
  = (Reply (Error "Record not found") 404, Some [ann; bob]) ∧
  status_of (remove_data calm "2" (Some [ann; bob])).1 ≠ Some 404%Z ∧
  status_of (update_data calm bob_maths (Some [ann; bob])).1 ≠ Some 404%Z.
Proof.
  assert (Hwf : Forall has_header (stored (Some [ann; bob]))) by repeat constructor.
  destruct (not_found_iff_absent calm (Some [ann; bob]) "9" eq_refl Hwf)
    as (Habsent & _ & _).
  destruct (not_found_iff_absent calm (Some [ann; bob]) "2" eq_refl Hwf)
    as (_ & Hremove & Hupdate).
  split; [| split].
  - apply Habsent. by_compute.
  - apply Hremove. by_compute.
  - apply (Hupdate bob_maths eq_refl). by_compute.
Defined.

(** C6: for a RollNo present in the store, a remove that answers 200 has
    left exactly the records whose RollNo differs, in their old order; and
    the remove does answer 200, with that file, when writing raises
    nothing. *)
Theorem remove_filters e rollno fs :
  read_raises e = false →
  Forall has_header (stored fs) →
  present rollno (stored fs) →
  (status_of (remove_data e rollno fs).1 = Some 200%Z →
     (remove_data e rollno fs).2
     = Some (filter (λ row : Row, row !! "RollNo" ≠ Some rollno) (stored fs))) ∧
  (write_fault e = None →
     remove_data e rollno fs
     = (Reply (Message "Record deleted successfully") 200,
        Some (filter (λ row : Row, row !! "RollNo" ≠ Some rollno) (stored fs)))).
Proof.
  intros Hread Hwf Hp. unfold remove_data. rewrite read_csv_stored by done.
  rewrite filter_RollNo_filter by by apply Forall_has_header_RollNo.
  rewrite decide_False by (by rewrite filter_length_present; intros []).
  assert (Hf : Forall has_header
            (filter (λ row : Row, row !! "RollNo" ≠ Some rollno) (stored fs))).
  { apply Forall_forall. intros row [_ Hin]%list_elem_of_filter.
    by eapply Forall_forall in Hwf. }
  split.
  - destruct (write_csv e _ fs) as [[|] fs'] eqn:Hw; [| done].
    intros _. cbn [snd]. apply write_csv_true in Hw as [_ ->].
    by rewrite written_rows_has_header.
  - intros He. by rewrite write_csv_calm.
Qed.

(** C6 at work: removing Ann from the store of Ann and Bob. *)
Lemma remove_filters_witness :
  remove_data calm "1" (Some [ann; bob])
  = (Reply (Message "Record deleted successfully") 200,
     Some (filter (λ row : Row, row !! "RollNo" ≠ Some "1") [ann; bob])).
Proof.
  apply (remove_filters calm "1" (Some [ann; bob])).
  - reflexivity.
  - repeat constructor.
  - by_compute.
  - reflexivity.
Defined.

(** ** Uniqueness of RollNo *)










(** ** Failing writes *)

(** C8: when writing the rows raises an exception, [write_csv] catches it
    and returns False, and the handler that was writing them (insert,
    remove or update) answers 500 with its error message; the file is the
    one the single failed attempt left: nothing is written again. *)
Theorem write_exception_gives_500 e fs rows ex fs' :
  write_csv_try e rows fs = (Some ex, fs') →
  write_csv e rows fs = (false, fs') ∧
  (∀ data : Row,
     (∀ field, field ∈ csv_header → is_Some (data !! field)) →
     any_RollNo (read_csv e fs) (default "" (data !! "RollNo")) = Ok false →
     rows = read_csv e fs ++ [data] →
     insert_data e data fs = (Reply (Error "Failed to write record") 500, fs')) ∧
  (∀ rollno,
     filter_RollNo (read_csv e fs) rollno = Ok rows →
     length (read_csv e fs) ≠ length rows →
     remove_data e rollno fs = (Reply (Error "Failed to delete record") 500, fs')) ∧
  (∀ data : gmap string json,
     update_rows (read_csv e fs) data = Ok (rows, true) →
     update_data e data fs = (Reply (Error "Failed to update record") 500, fs')).
Proof.
  intros Htry.
  assert (Hw : write_csv e rows fs = (false, fs')).
  { unfold write_csv. by rewrite Htry. }
  split; [done |]. split; [| split].
  - intros data Hall Hany ->. unfold insert_data.
    rewrite (proj1 (all_fields_forallb data) Hall). cbn [negb].
    by rewrite Hany, Hw.
  - intros rollno Hf Hlen. unfold remove_data. rewrite Hf.
    rewrite decide_False by done. by rewrite Hw.
  - intros data Hu. unfold update_data. rewrite Hu. cbn [negb]. by rewrite Hw.
Qed.

(** C8 at work: inserting Bob when the file cannot be opened for
    writing. *)
Lemma write_exception_gives_500_witness :
  write_csv read_only [ann; bob] (Some [ann]) = (false, Some [ann]) ∧
  insert_data read_only bob (Some [ann])
  = (Reply (Error "Failed to write record") 500, Some [ann]).
Proof.
  destruct (write_exception_gives_500 read_only (Some [ann]) [ann; bob] OSError
              (Some [ann]) eq_refl) as (Hw & Hinsert & _).
  split; [exact Hw |].
  apply Hinsert.
  - apply all_fields_forallb. reflexivity.
  - reflexivity.
  - reflexivity.
Defined.

(** ** Exceptions that leave a handler, and the header *)

Lemma any_RollNo_raises rows rollno ex :
  any_RollNo rows rollno = Raise ex → ex = KeyError "RollNo".
Proof.
  induction rows as [| row rows IH]; [done |]. cbn [any_RollNo]. unfold getitem.
  destruct (row !! "RollNo") as [x |]; cbn [bind]; [| congruence].
  by case_decide.
Qed.

Lemma filter_RollNo_raises rows rollno ex :
  filter_RollNo rows rollno = Raise ex → ex = KeyError "RollNo".
Proof.
  induction rows as [| row rows IH]; [done |]. cbn [filter_RollNo]. unfold getitem.
  destruct (row !! "RollNo") as [x |]; cbn [bind]; [| congruence].
  destruct (filter_RollNo rows rollno); cbn [bind]; [done | auto].
Qed.

Lemma update_rows_raises rows (data : gmap string json) ex :
  update_rows rows data = Raise ex → ex = KeyError "RollNo".
Proof.
  induction rows as [| row rows IH]; [done |]. cbn [update_rows]. unfold getitem.
  destruct (row !! "RollNo") as [x |]; cbn [bind]; [| congruence].
  destruct (data !! "RollNo") as [v |]; cbn [bind]; [| congruence].
  destruct (update_rows rows data) as [[rest u] |]; cbn [bind]; [done | auto].
Qed.

(** On a JSON object, the only exception that leaves a mutating handler
    is the KeyError of a missing RollNo: what [write_csv] raises inside
    never does. *)
Lemma handlers_raise_KeyError e fs ex :
  (∀ data : Row, (insert_data e data fs).1 = Raised ex → ex = KeyError "RollNo") ∧
  (∀ rollno, (remove_data e rollno fs).1 = Raised ex → ex = KeyError "RollNo") ∧
  (∀ data : gmap string json,
     (update_data e data fs).1 = Raised ex → ex = KeyError "RollNo").
Proof.
  split; [| split].
  - intros data. unfold insert_data.
    destruct (forallb _ csv_header); cbn [negb]; [| done].
    destruct (any_RollNo _ _) as [[|] | ex'] eqn:Hany; cbn [fst].
    + done.
    + by destruct (write_csv e _ fs) as [[|] fs'].
    + intros [= <-]. by eapply any_RollNo_raises.
  - intros rollno. unfold remove_data.
    destruct (filter_RollNo _ _) as [filtered | ex'] eqn:Hf; cbn [fst].
    + case_decide; [done |]. by destruct (write_csv e _ fs) as [[|] fs'].
    + intros [= <-]. by eapply filter_RollNo_raises.
  - intros data. unfold update_data.
    destruct (update_rows _ _) as [[records updated] | ex'] eqn:Hu; cbn [fst].
    + destruct updated; cbn [negb].
      * by destruct (write_csv e _ fs) as [[|] fs'].
      * unfold getitem. destruct (data !! "RollNo"); [done |]. by intros [= <-].
    + intros [= <-]. by eapply update_rows_raises.
Qed.

(** X7: the five columns are an invariant of the file under the three
    handlers that write it, whatever the request, when the operation
    succeeds, is rejected, or fails because reading raises, the file
    cannot be opened for writing, [DictWriter] refuses a row, or the
    device fails between two rows.  (A write that the device stops inside
    a line can leave a last record with [None] fields, which is no [Row]:
    it is not covered.) *)
Lemma handlers_keep_header e fs :
  Forall has_header (stored fs) →
  (∀ data : Row, Forall has_header (stored (insert_data e data fs).2)) ∧
  (∀ rollno, Forall has_header (stored (remove_data e rollno fs).2)) ∧
  (∀ data : gmap string json, Forall has_header (stored (update_data e data fs).2)).
Proof.
  intros Hfs. split; [| split].
  - intros data. unfold insert_data.
    destruct (forallb _ csv_header); cbn [negb]; [| done].
    destruct (any_RollNo _ _) as [[|] |]; [done | | done].
    pose proof (write_csv_keeps_header e (read_csv e fs ++ [data]) fs Hfs).
    by destruct (write_csv e _ fs) as [[|] fs'].
  - intros rollno. unfold remove_data.
    destruct (filter_RollNo _ _) as [filtered |]; [| done].
    case_decide; [done |].
    pose proof (write_csv_keeps_header e filtered fs Hfs).
    by destruct (write_csv e _ fs) as [[|] fs'].
  - intros data. unfold update_data.
    destruct (update_rows _ _) as [[records updated] |]; [| done].
    destruct updated; cbn [negb].
    + pose proof (write_csv_keeps_header e records fs Hfs).
      by destruct (write_csv e _ fs) as [[|] fs'].
    + by destruct (getitem data "RollNo").
Qed.

(** ** A missing or unreadable file *)

(** C10: when the file does not exist or reading it raises, [read_csv]
    returns the empty list, and a read, a remove or an update that names a
    RollNo answers 404 "Record not found"; remove and update leave the
    file as it was. *)
Theorem missing_file_not_found e fs :
  fs = None ∨ read_raises e = true →
  read_csv e fs = [] ∧
  (∀ c s, read_data e (Some (String c s)) fs
          = Reply (Error "Record not found") 404) ∧
  (∀ rollno, remove_data e rollno fs = (Reply (Error "Record not found") 404, fs)) ∧
  (∀ data : gmap string json, is_Some (data !! "RollNo") →
     update_data e data fs = (Reply (Error "Record not found") 404, fs)).
Proof.
  intros Hfs. pose proof (read_csv_empty e fs Hfs) as Hread.
  split; [done |]. split; [| split].
  - intros c s. unfold read_data. by rewrite Hread.
  - intros rollno. unfold remove_data. by rewrite Hread.
  - intros data [v Hv]. unfold update_data, getitem. by rewrite Hread, Hv.
Qed.

(** C10 at work: an unreadable file that holds Ann and Bob, and a missing
    file. *)
Lemma missing_file_not_found_witness :
  read_csv unreadable (Some [ann; bob]) = [] ∧
  read_data unreadable (Some "1") (Some [ann; bob])
  = Reply (Error "Record not found") 404 ∧
  remove_data calm "1" None = (Reply (Error "Record not found") 404, None) ∧
  update_data unreadable bob_maths (Some [ann; bob])
  = (Reply (Error "Record not found") 404, Some [ann; bob]).
Proof.
  destruct (missing_file_not_found unreadable (Some [ann; bob]) (or_intror eq_refl))
    as (Hread & Hget & _ & Hupdate).
  destruct (missing_file_not_found calm None (or_introl eq_refl))
    as (_ & _ & Hremove & _).
  split; [exact Hread |]. split; [apply Hget |]. split; [apply Hremove |].
  apply Hupdate. exists (JStr "2"). reflexivity.
Defined.

(** ** round(x, 2) on examples *)

(** 2.675 is stored below its decimal value and rounds down. *)
Example py_round2_below : py_round2 (nearest_float 2675 1000) = nearest_float 267 100.
Proof. vm_compute. reflexivity. Qed.

(** 0.125 and 0.375 are exact ties: they go to the even neighbour. *)
Example py_round2_ties :
  py_round2 (1 / 8) = nearest_float 12 100 ∧ py_round2 (3 / 8) = nearest_float 38 100.
Proof. split; vm_compute; reflexivity. Qed.

(** Integers, infinities and NaN round to themselves; the sign of a
    negative number that rounds to zero stays. *)
Example py_round2_fixed :
  py_round2 7 = 7%float ∧ py_round2 infinity = infinity ∧
  py_round2 nan = nan ∧ py_round2 (- (1 / 1024)) = (- 0)%float.
Proof. repeat split; vm_compute; reflexivity. Qed.

(** The mean of 61, 72 and 83 is 72 and stays 72.0. *)
Example row_avg_ann : row_avg decimal_float ann = PyFloat 72.
Proof. vm_compute. reflexivity. Qed.

(** ** calculate_avg *)

Section AverageProperties.

Variable py_float : string → option float.

(** A worker whose rows all have a RollNo and a Name puts one entry per
    row, with the row's RollNo, Name and [row_avg]. *)
Lemma calculate_avg_named records :
  Forall named records →
  ∃ student_avg, calculate_avg py_float records = Ok student_avg ∧
    length student_avg = length records ∧
    ∀ i row, records !! i = Some row →
      ∃ entry, student_avg !! i = Some entry ∧
        Some (RollNo entry) = row !! "RollNo" ∧
        Some (Name entry) = row !! "Name" ∧
        Average entry = row_avg py_float row.
Proof.
  induction 1 as [| row records [[rollno Hr] [name Hn]] _ (rest & IH & Hlen & Hrest)].
  - exists []. split; [done |]. split; [done |]. intros i row. by rewrite lookup_nil.
  - cbn [calculate_avg]. unfold getitem. rewrite Hr, Hn, IH. cbn [bind].
    eexists. split; [done |]. split; [by rewrite !length_cons, Hlen |].
    intros [| i] row'.
    + intros [= <-]. eexists. split; [done |]. by rewrite Hr, Hn.
    + apply Hrest.
Qed.

Lemma row_avg_parsed row english maths science :
  mark py_float row "English" = Some english →
  mark py_float row "Maths" = Some maths →
  mark py_float row "Science" = Some science →
  row_avg py_float row = PyFloat (py_round2 ((english + maths + science) / 3)).
Proof. unfold row_avg. by intros -> -> ->. Qed.

Lemma row_avg_unparsed row field :
  field ∈ ["English"; "Maths"; "Science"] →
  mark py_float row field = None →
  row_avg py_float row = PyInt 0.
Proof.
  rewrite !elem_of_cons, elem_of_nil. unfold row_avg.
  intros [-> | [-> | [-> | []]]] ->; [done | |].
  - by destruct (mark py_float row "English").
  - by destruct (mark py_float row "English"), (mark py_float row "Maths").
Qed.

(** C1, as amended: for records that have a RollNo and a Name,
    [calculate_avg] emits one entry per record, in order, and for every
    record whose English, Maths and Science fields parse as numbers the
    entry carries the record's RollNo and Name and, as Average, the mean
    (English + Maths + Science) / 3 rounded to two decimals by
    [round(avg, 2)]. *)
Theorem calculate_avg_rounded_mean records :
  Forall named records →
  ∃ student_avg, calculate_avg py_float records = Ok student_avg ∧
    length student_avg = length records ∧
    ∀ i row english maths science,
      records !! i = Some row →
      mark py_float row "English" = Some english →
      mark py_float row "Maths" = Some maths →
      mark py_float row "Science" = Some science →
      ∃ entry, student_avg !! i = Some entry ∧
        Some (RollNo entry) = row !! "RollNo" ∧
        Some (Name entry) = row !! "Name" ∧
        Average entry = PyFloat (py_round2 ((english + maths + science) / 3)).
Proof.
  intros Hnamed.
  destruct (calculate_avg_named records Hnamed) as (student_avg & Hc & Hlen & Hall).
  exists student_avg. split; [done |]. split; [done |].
  intros i row english maths science Hi He Hm Hs.
  destruct (Hall i row Hi) as (entry & Hentry & Hr & Hn & Ha).
  exists entry. rewrite Ha. by rewrite (row_avg_parsed row english maths science).
Qed.

(** C9: for records that have a RollNo and a Name, [calculate_avg] does
    not fail and emits one entry per record, in order; for every record
    one of whose English, Maths and Science fields is missing or does not
    parse as a number, the entry carries the record's RollNo and Name and
    the Average 0. *)
Theorem unparsable_marks_average_zero records :
  Forall named records →
  ∃ student_avg, calculate_avg py_float records = Ok student_avg ∧
    length student_avg = length records ∧
    ∀ i row field,
      records !! i = Some row →
      field ∈ ["English"; "Maths"; "Science"] →
      mark py_float row field = None →
      ∃ entry, student_avg !! i = Some entry ∧
        Some (RollNo entry) = row !! "RollNo" ∧
        Some (Name entry) = row !! "Name" ∧
        Average entry = PyInt 0.
Proof.
  intros Hnamed.
  destruct (calculate_avg_named records Hnamed) as (student_avg & Hc & Hlen & Hall).
  exists student_avg. split; [done |]. split; [done |].
  intros i row field Hi Hfield Hmark.
  destruct (Hall i row Hi) as (entry & Hentry & Hr & Hn & Ha).
  exists entry. rewrite Ha. by rewrite (row_avg_unparsed row field).
Qed.

End AverageProperties.

Lemma float_neq (x y : float) : Prim2SF x ≠ Prim2SF y → PyFloat x ≠ PyFloat y.
Proof. intros Hne [= ->]. by apply Hne. Qed.

(** C1 as stated fails: the marks 1, 0 and 0 parse as numbers, their mean
    is 1/3, and the Average emitted is 0.33. *)
Lemma calculate_avg_not_exact_mean :
  mark decimal_float cara "English" = Some 1%float ∧
  mark decimal_float cara "Maths" = Some 0%float ∧
  mark decimal_float cara "Science" = Some 0%float ∧
  calculate_avg decimal_float [cara]
  = Ok [{| RollNo := "3"; Name := "Cara"; Average := PyFloat (33 / 100) |}] ∧
  PyFloat (33 / 100) ≠ PyFloat ((1 + 0 + 0) / 3).
Proof.
  repeat split; try (vm_compute; reflexivity).
  apply float_neq. vm_compute. discriminate.
Qed.

(** C1 as amended, at work on Ann and Cara. *)
Lemma calculate_avg_rounded_mean_witness :
  ∃ student_avg, calculate_avg decimal_float [ann; cara] = Ok student_avg ∧
    ∃ entry, student_avg !! 1%nat = Some entry ∧
      Average entry = PyFloat (py_round2 ((1 + 0 + 0) / 3)).
Proof.
  destruct (calculate_avg_rounded_mean decimal_float [ann; cara])
    as (student_avg & Hc & _ & Hall).
  - repeat constructor; eexists; reflexivity.
  - exists student_avg. split; [exact Hc |].
    destruct (Hall 1%nat cara 1%float 0%float 0%float) as (entry & He & _ & _ & Ha);
      try (vm_compute; reflexivity).
    exists entry. split; [exact He | exact Ha].
Defined.

(** C9 at work: Dan's English mark is the text "absent". *)
Lemma unparsable_marks_average_zero_witness :
  ∃ student_avg, calculate_avg decimal_float [ann; dan] = Ok student_avg ∧
    ∃ entry, student_avg !! 1%nat = Some entry ∧
      RollNo entry = "4" ∧ Average entry = PyInt 0.
Proof.
  destruct (unparsable_marks_average_zero decimal_float [ann; dan])
    as (student_avg & Hc & _ & Hall).
  - repeat constructor; eexists; reflexivity.
  - exists student_avg. split; [exact Hc |].
    destruct (Hall 1%nat dan "English") as (entry & He & Hr & _ & Ha).
    + reflexivity.
    + rewrite !elem_of_cons. tauto.
    + vm_compute. reflexivity.
    + exists entry. split; [exact He |]. split; [| exact Ha].
      assert (Hd : dan !! "RollNo" = Some "4") by reflexivity.
      rewrite Hd in Hr. by injection Hr.
Defined.

(** ** The slices of average *)

(** Within the list, a slice with ordered non-negative bounds is a [take]
    of a [drop]. *)
Lemma py_slice_take_drop {A} (l : list A) (start stop : Z) :
  (0 ≤ start ≤ stop)%Z → (stop ≤ Z.of_nat (length l))%Z →
  py_slice l start stop = take (Z.to_nat (stop - start)) (drop (Z.to_nat start) l).
Proof.
  intros Hs Hl. unfold py_slice.
  destruct (Z.ltb_spec start 0); [lia |].
  destruct (Z.ltb_spec stop 0); [lia |].
  by rewrite !Z.min_l by lia.
Qed.

(** Consecutive blocks of [k] elements make up the list again. *)
Lemma blocks_concat {A} (k m : nat) (l : list A) :
  length l < m * k →
  concat ((λ i, take k (drop (i * k) l)) <$> seq 0 m) = l.
Proof.
  revert l. induction m as [| m IH]; intros l Hlen; [lia |].
  cbn [seq fmap list_fmap concat]. rewrite Nat.mul_0_l, drop_0.
  destruct (decide (length l < k)) as [Hshort | Hlong].
  - rewrite take_ge by lia. rewrite <- (app_nil_r l) at 2. f_equal.
    clear IH Hlen.
    assert (Hrest : ∀ j : nat, (1 ≤ j)%nat →
      concat ((λ i, take k (drop (i * k) l)) <$> seq j m) = []); [| by apply Hrest].
    induction m as [| m IHm]; intros j Hj; [done |].
    cbn [seq fmap list_fmap concat]. rewrite IHm by lia.
    rewrite drop_ge by nia. by rewrite take_nil.
  - transitivity (take k l ++ drop k l); [| apply take_drop]. f_equal.
    transitivity (concat ((λ i, take k (drop (i * k) (drop k l))) <$> seq 0 m));
      [| apply IH; rewrite length_drop; lia].
    rewrite <- fmap_S_seq, <- list_fmap_compose. f_equal.
    apply list_fmap_ext. intros _ i _. simpl.
    by rewrite drop_drop.
Qed.

(** With a positive thread size the slices partition the records. *)
Lemma chunks_concat (records : list Row) (record_per_thread : Z) :
  (0 < record_per_thread)%Z →
  concat (chunks records record_per_thread) = records.
Proof.
  intros Hk.
  assert (∃ k : nat, record_per_thread = Z.of_nat k ∧ 0 < k) as (k & -> & Hpos)
    by (exists (Z.to_nat record_per_thread); lia).
  unfold chunks, range. rewrite <- list_fmap_compose.
  set (n := length records).
  assert (Hdiv : Z.to_nat (Z.of_nat n / Z.of_nat k + 1) = S (n / k))
    by (rewrite <- Nat2Z.inj_div; lia).
  rewrite Hdiv.
  transitivity (concat ((λ i, take k (drop (i * k) records)) <$> seq 0 (S (n / k)))).
  - f_equal. apply list_fmap_ext. intros i ? [-> Hi]%lookup_seq.
    cbn [Nat.add compose].
    assert (i * k ≤ n)%nat.
    { pose proof (Nat.Div0.mul_div_le n k). nia. }
    rewrite py_slice_take_drop by (fold n; lia).
    replace (Z.to_nat (Z.of_nat i * Z.of_nat k)) with (i * k)%nat by lia.
    destruct (Z.min_spec (Z.of_nat i * Z.of_nat k + Z.of_nat k)
                (Z.of_nat n)) as [[Hle ->] | [Hle ->]].
    + f_equal. lia.
    + rewrite take_ge by (rewrite length_drop; fold n; lia).
      rewrite take_ge by (rewrite length_drop; fold n; lia). done.
  - apply blocks_concat. fold n. pose proof (Nat.div_mod_eq n k).
    pose proof (Nat.mod_upper_bound n k). nia.
Qed.

Lemma py_slice_Forall {A} (P : A → Prop) (l : list A) start stop :
  Forall P l → Forall P (py_slice l start stop).
Proof. intros Hl. unfold py_slice. by apply Forall_take, Forall_drop. Qed.

Lemma chunks_length_le (records : list Row) (record_per_thread : Z) chunk :
  (0 < record_per_thread)%Z →
  chunk ∈ chunks records record_per_thread →
  (Z.of_nat (length chunk) ≤ record_per_thread)%Z.
Proof.
  intros Hk. unfold chunks, range. rewrite <- list_fmap_compose.
  intros (i & -> & _)%list_elem_of_fmap. cbn [compose].
  unfold py_slice. rewrite length_take.
  set (n := Z.of_nat (length records)).
  assert (0 ≤ Z.of_nat i * record_per_thread)%Z by nia.
  destruct (Z.ltb_spec (Z.of_nat i * record_per_thread) 0); [lia |].
  destruct (Z.ltb_spec
    (Z.min (Z.of_nat i * record_per_thread + record_per_thread) n) 0); lia.
Qed.

Section AverageReply.

Variable py_float : string → option float.

(** X15: for a positive thread size and rows that have a RollNo and a
    Name, the reply of [average] is the list of one worker, the first to
    put its result: it has at most [thread_size] entries. *)
Lemma average_one_slice e record_per_thread t rest fs :
  (0 < record_per_thread)%Z →
  Forall named (read_csv e fs) →
  t < length (chunks (read_csv e fs) record_per_thread) →
  ∃ chunk student_avg,
    chunks (read_csv e fs) record_per_thread !! t = Some chunk ∧
    calculate_avg py_float chunk = Ok student_avg ∧
    average py_float e record_per_thread (t :: rest) fs
    = Reply (Averages student_avg) 200 ∧
    (Z.of_nat (length student_avg) ≤ record_per_thread)%Z.
Proof.
  intros Hk Hnamed Ht.
  destruct (lookup_lt_is_Some_2 _ _ Ht) as [chunk Hchunk].
  assert (Hin : chunk ∈ chunks (read_csv e fs) record_per_thread)
    by (apply list_elem_of_lookup; eauto).
  assert (Hc : Forall named chunk).
  { revert Hin. unfold chunks. intros (i & -> & _)%list_elem_of_fmap.
    by apply py_slice_Forall. }
  destruct (calculate_avg_named py_float chunk Hc) as (student_avg & Havg & Hlen & _).
  exists chunk, student_avg. split; [done |]. split; [done |]. split.
  - unfold average. destruct (Z.eqb_spec record_per_thread 0); [lia |].
    unfold result_queue. cbn [omap list_omap].
    rewrite list_lookup_fmap, Hchunk. cbn [fmap option_fmap option_map].
    by rewrite Havg.
  - rewrite Hlen. by eapply chunks_length_le.
Qed.

End AverageReply.

(** C2 fails on the code: with the default thread size 10 and eleven
    stored records there are two workers, and the reply holds the entries
    of the worker that finished first only: the first ten records, or the
    eleventh alone, never one entry per stored record. *)
Theorem average_drops_records :
  length eleven = 11%nat ∧
  (∃ all_student_avg,
     average decimal_float calm default_thread_size [0; 1]%nat (Some eleven)
     = Reply (Averages all_student_avg) 200 ∧
     RollNo <$> all_student_avg
     = ["1"; "2"; "3"; "4"; "5"; "6"; "7"; "8"; "9"; "10"]) ∧
  (∃ all_student_avg,
     average decimal_float calm default_thread_size [1; 0]%nat (Some eleven)
     = Reply (Averages all_student_avg) 200 ∧
     RollNo <$> all_student_avg = ["11"]).
Proof.
  split; [reflexivity |]. split; eexists; split; vm_compute; reflexivity.
Qed.

(** * Further properties *)

(** ** The file as written and read back *)

Lemma written_row_lookup (row : Row) key :
  key ∈ csv_header → written_row row !! key = Some (default "" (row !! key)).
Proof.
  unfold written_row, as_read. unfold csv_header at 2 3.
  cbn [zip zip_with list_to_map foldr uncurry fst snd fmap list_fmap].
  unfold csv_header. rewrite !elem_of_cons, elem_of_nil. intros Hk.
  repeat (destruct Hk as [-> | Hk];
          [repeat (rewrite lookup_insert; case_decide; [done | try done]) |]).
  done.
Qed.

Lemma written_row_dom (row : Row) : has_header (written_row row).
Proof. unfold written_row, csv_header. cbn [fmap list_fmap]. apply as_read_has_header. Qed.

(** Rows without a key outside the header are all written. *)
Lemma writerows_known rows :
  Forall (λ row : Row, dom row ⊆ list_to_set csv_header) rows →
  writerows None rows = (written_row <$> rows, None).
Proof.
  induction 1 as [| row rows Hrow _ IH]; [done |].
  cbn [writerows]. unfold dict_to_list. rewrite decide_True by done.
  cbn [fmap option_fmap option_map]. by rewrite IH.
Qed.

(** X1: when nothing fails and no row has a key outside the header,
    [write_csv] returns True and [read_csv] then returns the rows as
    written: a row with the five columns comes back unchanged, and a
    column a row lacks comes back as the empty string. *)
Theorem write_then_read e rows fs :
  read_raises e = false →
  write_fault e = None →
  Forall (λ row : Row, dom row ⊆ list_to_set csv_header) rows →
  (write_csv e rows fs).1 = true ∧
  read_csv e (write_csv e rows fs).2 = written_row <$> rows ∧
  (∀ row, has_header row → written_row row = row) ∧
  (∀ row key, key ∈ csv_header →
     written_row row !! key = Some (default "" (row !! key))).
Proof.
  intros Hread Hwrite Hrows.
  assert (Hw : write_csv e rows fs = (true, Some (written_row <$> rows))).
  { unfold write_csv, write_csv_try. rewrite Hwrite. by rewrite writerows_known. }
  rewrite Hw. cbn [fst snd]. split; [done |]. split.
  - unfold read_csv. by rewrite Hread.
  - split; [apply written_row_has_header | apply written_row_lookup].
Qed.

(** [writerows] stops at the first row with a key outside the header. *)
Lemma writerows_unknown_key before bad after :
  Forall (λ row : Row, dom row ⊆ list_to_set csv_header) before →
  ¬ dom bad ⊆ list_to_set csv_header →
  writerows None (before ++ bad :: after) = (written_row <$> before, Some ValueError).
Proof.
  intros Hbefore Hbad. induction Hbefore as [| row rows Hrow _ IH].
  - cbn [app writerows]. unfold dict_to_list. by rewrite decide_False by done.
  - cbn [app writerows]. unfold dict_to_list. rewrite decide_True by done.
    cbn [fmap option_fmap option_map]. by rewrite IH.
Qed.

(** A row with a key outside the header stops the write: [write_csv]
    returns False and the file holds the rows before it. *)
Lemma write_csv_unknown_key e before bad after fs :
  write_fault e = None →
  Forall (λ row : Row, dom row ⊆ list_to_set csv_header) before →
  ¬ dom bad ⊆ list_to_set csv_header →
  write_csv e (before ++ bad :: after) fs = (false, Some (written_row <$> before)).
Proof.
  intros Hwrite Hbefore Hbad. unfold write_csv, write_csv_try. rewrite Hwrite.
  by rewrite writerows_unknown_key.
Qed.

(** ** insert_data at its edges *)

Lemma forallb_false_elem {A} (f : A → bool) (l : list A) :
  forallb f l = false → ∃ x, x ∈ l ∧ f x = false.
Proof.
  induction l as [| a l IH]; [done |]. cbn [forallb].
  destruct (f a) eqn:Hfa; cbn [andb].
  - intros (x & Hin & Hx)%IH. exists x. split; [by right | done].
  - intros _. exists a. split; [left | done].
Qed.

(** X2: [insert_data] answers 400 "Missing required fields" exactly when
    the request lacks one of the five fields, whatever the file holds. *)
Theorem insert_missing_fields e (data : Row) fs :
  (insert_data e data fs).1 = Reply (Error "Missing required fields") 400
  ↔ ∃ field, field ∈ csv_header ∧ data !! field = None.
Proof.
  unfold insert_data.
  destruct (forallb _ csv_header) eqn:Hall; cbn [negb].
  - pose proof (proj2 (all_fields_forallb data) Hall) as Hfields. split.
    + destruct (any_RollNo _ _) as [[|] |]; cbn [fst]; [done | | done].
      by destruct (write_csv e _ fs) as [[|] fs'].
    + intros (field & Hin & Hnone). destruct (Hfields field Hin) as [x Hx]. congruence.
  - split; [intros _ | done].
    apply forallb_false_elem in Hall as (field & Hin & Hf).
    exists field. split; [done |].
    apply bool_decide_eq_false in Hf. by apply eq_None_not_Some.
Qed.

Lemma unknown_key_not_subseteq (data : Row) key :
  key ∉ csv_header → is_Some (data !! key) →
  ¬ dom data ⊆ list_to_set csv_header.
Proof.
  intros Hkey Hsome Hsub. apply Hkey.
  apply (elem_of_list_to_set (C:=gset string)), Hsub.
  by apply elem_of_dom.
Qed.

Lemma has_header_subseteq (row : Row) :
  has_header row → dom row ⊆ list_to_set csv_header.
Proof. unfold has_header. by intros ->. Qed.

Lemma Forall_has_header_subseteq rows :
  Forall has_header rows →
  Forall (λ row : Row, dom row ⊆ list_to_set csv_header) rows.
Proof. intros H. eapply Forall_impl; [exact H |]. apply has_header_subseteq. Qed.

(** X3: an insert request that has the five fields and one more, with a
    new RollNo, answers 500 "Failed to write record": [DictWriter] raises
    on the extra key after the old records are written again, so the
    stored records are unchanged. *)
Theorem insert_unknown_field e (data : Row) fs key :
  read_raises e = false →
  write_fault e = None →
  Forall has_header (stored fs) →
  (∀ field, field ∈ csv_header → is_Some (data !! field)) →
  (∀ rollno, data !! "RollNo" = Some rollno → ¬ present rollno (stored fs)) →
  key ∉ csv_header → is_Some (data !! key) →
  insert_data e data fs
  = (Reply (Error "Failed to write record") 500, Some (stored fs)).
Proof.
  intros Hread Hwrite Hwf Hall Hfresh Hkey Hsome. unfold insert_data.
  rewrite (proj1 (all_fields_forallb data) Hall). cbn [negb].
  rewrite read_csv_stored by done.
  destruct (Hall "RollNo") as [rollno Hr];
    [unfold csv_header; rewrite !elem_of_cons; tauto |].
  rewrite Hr. change (default "" (Some rollno)) with rollno.
  destruct (any_RollNo_present (stored fs) rollno) as (b & -> & Hb);
    [by apply Forall_has_header_RollNo |].
  destruct b; [exfalso; apply (Hfresh rollno Hr); by apply Hb |].
  rewrite (write_csv_unknown_key e (stored fs) data []); try done.
  - by rewrite written_rows_has_header.
  - by apply Forall_has_header_subseteq.
  - by eapply unknown_key_not_subseteq.
Qed.

(** X4: when reading the file raises and writing works, an insert with
    the five fields answers 201 and the file holds the new record alone:
    [read_csv] returned the empty list, so the old records are lost. *)
Theorem insert_unreadable_overwrites e (data : Row) fs :
  read_raises e = true →
  write_fault e = None →
  has_header data →
  insert_data e data fs
  = (Reply (Message "Record inserted successfully") 201, Some [data]).
Proof.
  intros Hread Hwrite Hdata. unfold insert_data.
  assert (Hall : ∀ field, field ∈ csv_header → is_Some (data !! field))
    by (intros field; by apply has_header_field).
  rewrite (proj1 (all_fields_forallb data) Hall). cbn [negb].
  rewrite read_csv_empty by (by right). cbn [any_RollNo app].
  rewrite write_csv_calm; [done | done |]. by repeat constructor.
Qed.

(** When the file cannot be opened for writing, no handler changes it. *)
Lemma write_csv_open_fails e rows fs :
  write_fault e = Some OpenFails → write_csv e rows fs = (false, fs).
Proof. intros He. unfold write_csv, write_csv_try. by rewrite He. Qed.

(** X5: when the file cannot be opened for writing, insert, remove and
    update leave it as it was and never answer with their success status
    (201, 200, 200). *)
Theorem open_failure_changes_nothing e fs :
  write_fault e = Some OpenFails →
  (∀ data : Row, (insert_data e data fs).2 = fs ∧
     status_of (insert_data e data fs).1 ≠ Some 201%Z) ∧
  (∀ rollno, (remove_data e rollno fs).2 = fs ∧
     status_of (remove_data e rollno fs).1 ≠ Some 200%Z) ∧
  (∀ data : gmap string json, (update_data e data fs).2 = fs ∧
     status_of (update_data e data fs).1 ≠ Some 200%Z).
Proof.
  intros He. split; [| split].
  - intros data. unfold insert_data.
    destruct (forallb _ csv_header); cbn [negb]; [| done].
    destruct (any_RollNo _ _) as [[|] |]; [done | | done].
    by rewrite write_csv_open_fails.
  - intros rollno. unfold remove_data.
    destruct (filter_RollNo _ _) as [filtered |]; [| done].
    case_decide; [done |]. by rewrite write_csv_open_fails.
  - intros data. unfold update_data.
    destruct (update_rows _ _) as [[records updated] |]; [| done].
    destruct updated; cbn [negb].
    + by rewrite write_csv_open_fails.
    + by destruct (getitem data "RollNo").
Qed.

(** ** read_data *)

Lemma find_RollNo_absent rows rollno :
  Forall (λ row : Row, is_Some (row !! "RollNo")) rows →
  ¬ present rollno rows →
  find_RollNo rows rollno = Ok None.
Proof.
  induction 1 as [| row rows [x Hx] _ IH]; [done |]. intros Hno.
  cbn [find_RollNo]. unfold getitem. rewrite Hx. cbn [bind].
  rewrite present_cons, Hx in Hno.
  rewrite decide_False by (intros ->; by apply Hno; left).
  apply IH. intros Hp. apply Hno. by right.
Qed.

Lemma find_RollNo_first before row after rollno :
  Forall (λ row : Row, is_Some (row !! "RollNo")) before →
  ¬ present rollno before →
  row !! "RollNo" = Some rollno →
  find_RollNo (before ++ row :: after) rollno = Ok (Some row).
Proof.
  intros Hbefore Hno Hrow. induction Hbefore as [| r rs [x Hx] _ IH].
  - cbn [app find_RollNo]. unfold getitem. rewrite Hrow. cbn [bind].
    by rewrite decide_True.
  - cbn [app find_RollNo]. unfold getitem. rewrite Hx. cbn [bind].
    rewrite present_cons, Hx in Hno.
    rewrite decide_False by (intros ->; by apply Hno; left).
    apply IH. intros Hp. apply Hno. by right.
Qed.

(** A RollNo that is present has a first record. *)
Lemma present_first rollno rows :
  present rollno rows →
  ∃ before row after, rows = before ++ row :: after ∧
    ¬ present rollno before ∧ row !! "RollNo" = Some rollno.
Proof.
  induction rows as [| r rs IH]; [by intros ?%present_nil |].
  intros Hp. destruct (decide (r !! "RollNo" = Some rollno)) as [Hr | Hr].
  - exists [], r, rs. split; [done |]. split; [apply present_nil | done].
  - apply present_cons in Hp as [? | Hp]; [done |].
    destruct (IH Hp) as (before & row & after & -> & Hno & Hrow).
    exists (r :: before), row, after. split; [done |]. split; [| done].
    rewrite present_cons. tauto.
Qed.

(** X8: on a readable file with the header, [read_data] with a non-empty
    RollNo answers 404 when no stored record has it, and otherwise answers
    200 with the first stored record that has it. *)
Theorem read_data_first_match e fs c s :
  read_raises e = false →
  Forall has_header (stored fs) →
  (¬ present (String c s) (stored fs) →
     read_data e (Some (String c s)) fs = Reply (Error "Record not found") 404) ∧
  (present (String c s) (stored fs) →
     ∃ before row after, stored fs = before ++ row :: after ∧
       ¬ present (String c s) before ∧
       row !! "RollNo" = Some (String c s) ∧
       read_data e (Some (String c s)) fs = Reply (RowBody row) 200).
Proof.
  intros Hread Hwf. apply Forall_has_header_RollNo in Hwf.
  unfold read_data. rewrite read_csv_stored by done. split.
  - intros Hno. by rewrite find_RollNo_absent.
  - intros (before & row & after & Heq & Hno & Hrow)%present_first.
    exists before, row, after. split; [done |]. split; [done |]. split; [done |].
    rewrite Heq in *. apply Forall_app in Hwf as [Hb _].
    by rewrite find_RollNo_first.
Qed.

(** ** Reading after a mutation *)

(** What an insert that answers 201 has done. *)
Lemma insert_data_201 e (data : Row) fs :
  read_raises e = false →
  Forall has_header (stored fs) →
  status_of (insert_data e data fs).1 = Some 201%Z →
  has_header data ∧
  (∃ rollno, data !! "RollNo" = Some rollno ∧ ¬ present rollno (stored fs)) ∧
  (insert_data e data fs).2 = Some (stored fs ++ [data]).
Proof.
  intros Hread Hwf. unfold insert_data.
  destruct (forallb _ csv_header) eqn:Hall; cbn [negb]; [| done].
  pose proof (proj2 (all_fields_forallb data) Hall) as Hfields.
  rewrite read_csv_stored by done.
  destruct (Hfields "RollNo") as [rollno Hr];
    [unfold csv_header; rewrite !elem_of_cons; tauto |].
  rewrite Hr. change (default "" (Some rollno)) with rollno.
  destruct (any_RollNo_present (stored fs) rollno) as (b & -> & Hb);
    [by apply Forall_has_header_RollNo |].
  destruct b; [done |].
  destruct (write_csv e (stored fs ++ [data]) fs) as [[|] fs'] eqn:Hw; [| done].
  intros _. cbn [snd]. apply write_csv_true in Hw as [Hdom ->].
  assert (Hdata : has_header data).
  { apply all_fields_has_header; [done |].
    apply Forall_app in Hdom as [_ Hdom]. by apply Forall_cons in Hdom as [? _]. }
  split; [done |]. split.
  - exists rollno. split; [done |]. intros Hp. by apply Hb in Hp.
  - rewrite written_rows_has_header; [done |].
    apply Forall_app. split; [done |]. by repeat constructor.
Qed.

(** X9: after an insert that answered 201, reading the RollNo of the new
    record returns that record. *)
Theorem insert_then_read e (data : Row) fs c s :
  read_raises e = false →
  Forall has_header (stored fs) →
  data !! "RollNo" = Some (String c s) →
  status_of (insert_data e data fs).1 = Some 201%Z →
  read_data e (Some (String c s)) (insert_data e data fs).2
  = Reply (RowBody data) 200.
Proof.
  intros Hread Hwf Hr H201.
  destruct (insert_data_201 e data fs Hread Hwf H201)
    as (Hdata & (rollno & Hr' & Hno) & ->).
  assert (rollno = String c s) as -> by congruence.
  unfold read_data. rewrite read_csv_stored by done. cbn [stored default from_option id].
  rewrite find_RollNo_first; [done | | done | done].
  by apply Forall_has_header_RollNo.
Qed.

Lemma find_RollNo_filter rows rollno other :
  Forall (λ row : Row, is_Some (row !! "RollNo")) rows →
  other ≠ rollno →
  find_RollNo (filter (λ row : Row, row !! "RollNo" ≠ Some rollno) rows) other
  = find_RollNo rows other.
Proof.
  intros Hall Hne. induction Hall as [| row rows [x Hx] _ IH]; [done |].
  destruct (decide (x = rollno)) as [-> | Hx'].
  - rewrite filter_cons_False by (rewrite Hx; by intros []).
    cbn [find_RollNo]. unfold getitem. rewrite Hx. cbn [bind].
    by rewrite decide_False by done.
  - rewrite filter_cons_True by (rewrite Hx; congruence).
    cbn [find_RollNo]. unfold getitem. rewrite Hx. cbn [bind].
    case_decide; [done | apply IH].
Qed.

Lemma filter_not_present rows rollno :
  ¬ present rollno (filter (λ row : Row, row !! "RollNo" ≠ Some rollno) rows).
Proof.
  intros (row & [Hne _]%list_elem_of_filter & Hrow)%present_exists. done.
Qed.

(** X10: after a remove that answered 200, reading the removed RollNo
    answers 404, and reading any other RollNo answers as before the
    remove. *)
Theorem remove_then_read e rollno fs :
  read_raises e = false →
  Forall has_header (stored fs) →
  status_of (remove_data e rollno fs).1 = Some 200%Z →
  (∀ c s, rollno = String c s →
     read_data e (Some rollno) (remove_data e rollno fs).2
     = Reply (Error "Record not found") 404) ∧
  (∀ other, other ≠ rollno →
     read_data e (Some other) (remove_data e rollno fs).2
     = read_data e (Some other) fs).
Proof.
  intros Hread Hwf H200.
  assert (Hsome := Forall_has_header_RollNo _ Hwf).
  assert (Hfs : (remove_data e rollno fs).2
    = Some (filter (λ row : Row, row !! "RollNo" ≠ Some rollno) (stored fs))).
  { revert H200. unfold remove_data. rewrite read_csv_stored by done.
    rewrite filter_RollNo_filter by done.
    case_decide; [done |].
    destruct (write_csv e _ fs) as [[|] fs'] eqn:Hw; [| done].
    intros _. cbn [snd]. apply write_csv_true in Hw as [_ ->].
    rewrite written_rows_has_header; [done |].
    apply Forall_forall. intros row [_ Hin]%list_elem_of_filter.
    by eapply Forall_forall in Hwf. }
  rewrite Hfs.
  assert (Hfiltered : Forall (λ row : Row, is_Some (row !! "RollNo"))
            (filter (λ row : Row, row !! "RollNo" ≠ Some rollno) (stored fs))).
  { apply Forall_forall. intros row [_ Hin]%list_elem_of_filter.
    by eapply Forall_forall in Hsome. }
  split.
  - intros c s ->. unfold read_data. rewrite read_csv_stored by done.
    cbn [stored default from_option id].
    rewrite find_RollNo_absent; [done | done | apply filter_not_present].
  - intros other Hne. unfold read_data. destruct other as [| c s]; [done |].
    rewrite !read_csv_stored by done. cbn [stored default from_option id].
    by rewrite find_RollNo_filter.
Qed.

(** ** update_data: what it writes *)

(** On rows that all have a RollNo the loop is a map: a row with the RollNo
    of the request takes the fields of the request, the others stay. *)
Lemma update_rows_map rows (data : gmap string json) rollno :
  Forall (λ row : Row, is_Some (row !! "RollNo")) rows →
  data !! "RollNo" = Some (JStr rollno) →
  ∃ updated,
    update_rows rows data
    = Ok ((λ row : Row, if decide (row !! "RollNo" = Some rollno)
                        then (csv_text <$> data) ∪ row else row) <$> rows,
          updated) ∧
    (updated = true ↔ present rollno rows).
Proof.
  intros Hall Hv. induction Hall as [| row rows [x Hx] _ (u & IH & Hu)].
  - exists false. split; [done |]. split; [done |]. by intros ?%present_nil.
  - cbn [update_rows]. unfold getitem. rewrite Hx, Hv, IH. cbn [bind].
    eexists. split.
    + rewrite fmap_cons. do 3 f_equal. rewrite Hx.
      case_bool_decide as Hhit; case_decide as Hd; try done; congruence.
    + rewrite present_cons, Hx, orb_true_iff, Hu, bool_decide_eq_true.
      split; (intros [Heq | ?]; [left | by right]); congruence.
Qed.

Lemma merged_has_header (m row : Row) :
  has_header row → dom (m ∪ row) ⊆ list_to_set csv_header → has_header (m ∪ row).
Proof.
  unfold has_header. intros Hrow Hsub. apply set_eq. intros key. split.
  - apply Hsub.
  - rewrite <- Hrow, dom_union_L. intros Hk. apply elem_of_union. by right.
Qed.

(** What an update that answers 200 has done. *)
Lemma update_data_200 e (data : gmap string json) fs rollno :
  read_raises e = false →
  Forall has_header (stored fs) →
  data !! "RollNo" = Some (JStr rollno) →
  status_of (update_data e data fs).1 = Some 200%Z →
  (update_data e data fs).2
  = Some ((λ row : Row, if decide (row !! "RollNo" = Some rollno)
                        then (csv_text <$> data) ∪ row else row) <$> stored fs).
Proof.
  intros Hread Hwf Hv. unfold update_data. rewrite read_csv_stored by done.
  destruct (update_rows_map (stored fs) data rollno) as (u & -> & Hu);
    [by apply Forall_has_header_RollNo | done |].
  destruct u; cbn [negb]; [| by destruct (getitem data "RollNo")].
  destruct (write_csv e _ fs) as [[|] fs'] eqn:Hw; [| done].
  intros _. cbn [snd]. apply write_csv_true in Hw as [Hdom ->].
  rewrite written_rows_has_header; [done |].
  apply Forall_forall. intros row' Hin'.
  pose proof (proj1 (Forall_forall _ _) Hdom row' Hin') as Hsub.
  apply list_elem_of_fmap in Hin' as (row & -> & Hin).
  pose proof (proj1 (Forall_forall _ _) Hwf row Hin) as Hrow.
  cbv beta in *. case_decide; [by apply merged_has_header | done].
Qed.

(** X11: for a RollNo present in the store, an update that answers 200
    has left every record with that RollNo merged with the fields of the
    request (the request wins) and every other record as it was, in the
    old order; the update does answer 200 when writing raises nothing and
    the request has no key outside the header. *)
Theorem update_replaces e (data : gmap string json) fs rollno :
  read_raises e = false →
  Forall has_header (stored fs) →
  data !! "RollNo" = Some (JStr rollno) →
  present rollno (stored fs) →
  (status_of (update_data e data fs).1 = Some 200%Z →
     (update_data e data fs).2
     = Some ((λ row : Row, if decide (row !! "RollNo" = Some rollno)
                           then (csv_text <$> data) ∪ row else row) <$> stored fs)) ∧
  (write_fault e = None → dom data ⊆ list_to_set csv_header →
     update_data e data fs
     = (Reply (Message "Record updated successfully") 200,
        Some ((λ row : Row, if decide (row !! "RollNo" = Some rollno)
                            then (csv_text <$> data) ∪ row else row) <$> stored fs))).
Proof.
  intros Hread Hwf Hv Hp. split; [by apply update_data_200 |].
  intros Hwrite Hdata. unfold update_data. rewrite read_csv_stored by done.
  destruct (update_rows_map (stored fs) data rollno) as (u & -> & Hu);
    [by apply Forall_has_header_RollNo | done |].
  apply Hu in Hp as ->. cbn [negb].
  rewrite write_csv_calm; [done | done |].
  apply Forall_fmap. eapply Forall_impl; [exact Hwf |].
  intros row Hrow. cbn [compose]. case_decide; [| done].
  apply merged_has_header; [done |].
  rewrite dom_union_L, dom_fmap_L. intros key [Hk | Hk]%elem_of_union.
  - by apply Hdata.
  - by rewrite <- Hrow.
Qed.

Lemma update_map_before (data : gmap string json) rollno before :
  ¬ present rollno before →
  (λ row : Row, if decide (row !! "RollNo" = Some rollno)
                then (csv_text <$> data) ∪ row else row) <$> before
  = before.
Proof.
  induction before as [| row rows IH]; [done |]. intros Hno.
  rewrite present_cons in Hno. rewrite fmap_cons.
  rewrite decide_False by tauto. rewrite IH by tauto. done.
Qed.

(** X12: an update whose body has a key outside the header and whose
    RollNo is present answers 500 "Failed to update record", and the file
    is cut down to the records before the first one with that RollNo:
    [DictWriter] raises on the updated row after the file was truncated
    and those records written. *)
Theorem update_unknown_field_truncates e (data : gmap string json) fs
    rollno key before row after :
  read_raises e = false →
  write_fault e = None →
  Forall has_header (stored fs) →
  data !! "RollNo" = Some (JStr rollno) →
  key ∉ csv_header → is_Some (data !! key) →
  stored fs = before ++ row :: after →
  ¬ present rollno before →
  row !! "RollNo" = Some rollno →
  update_data e data fs
  = (Reply (Error "Failed to update record") 500, Some before).
Proof.
  intros Hread Hwrite Hwf Hv Hkey Hsome Hfs Hno Hrow.
  unfold update_data. rewrite read_csv_stored by done.
  destruct (update_rows_map (stored fs) data rollno) as (u & -> & Hu);
    [by apply Forall_has_header_RollNo | done |].
  assert (u = true) as ->.
  { apply Hu. rewrite Hfs. apply present_exists. exists row. split; [| done].
    apply elem_of_app. right. left. }
  cbn [negb]. rewrite Hfs, fmap_app, fmap_cons, update_map_before by done.
  rewrite decide_True by done.
  rewrite Hfs in Hwf. apply Forall_app in Hwf as [Hbefore _].
  rewrite write_csv_unknown_key; try done.
  - by rewrite written_rows_has_header.
  - by apply Forall_has_header_subseteq.
  - intros Hsub. apply Hkey.
    apply (elem_of_list_to_set (C:=gset string)), Hsub.
    rewrite dom_union_L, dom_fmap_L. apply elem_of_union. left.
    by apply elem_of_dom.
Qed.

(** X13: after an update that answered 200, reading its RollNo returns
    the first record with that RollNo merged with the fields of the
    request. *)
Theorem update_then_read e (data : gmap string json) fs c s before row after :
  read_raises e = false →
  Forall has_header (stored fs) →
  data !! "RollNo" = Some (JStr (String c s)) →
  stored fs = before ++ row :: after →
  ¬ present (String c s) before →
  row !! "RollNo" = Some (String c s) →
  status_of (update_data e data fs).1 = Some 200%Z →
  read_data e (Some (String c s)) (update_data e data fs).2
  = Reply (RowBody ((csv_text <$> data) ∪ row)) 200.
Proof.
  intros Hread Hwf Hv Hfs Hno Hrow H200.
  rewrite (update_data_200 e data fs (String c s)) by done.
  unfold read_data. rewrite read_csv_stored by done.
  cbn [stored default from_option id].
  rewrite Hfs, fmap_app, fmap_cons, update_map_before by done.
  rewrite decide_True by done.
  rewrite Hfs in Hwf. apply Forall_app in Hwf as [Hbefore _].
  rewrite find_RollNo_first; [done | by apply Forall_has_header_RollNo | done |].
  apply lookup_union_Some_l. by rewrite lookup_fmap, Hv.
Qed.

(** ** The slices and the reply of average *)

(** X14: for a positive thread size the slices of [average] concatenate
    to the record list, there are [len // thread_size + 1] of them, and
    none is longer than the thread size. *)
Theorem chunks_partition (records : list Row) (record_per_thread : Z) :
  (0 < record_per_thread)%Z →
  concat (chunks records record_per_thread) = records ∧
  length (chunks records record_per_thread)
  = S (length records / Z.to_nat record_per_thread) ∧
  Forall (λ chunk : list Row, (Z.of_nat (length chunk) ≤ record_per_thread)%Z)
    (chunks records record_per_thread).
Proof.
  intros Hk. split; [by apply chunks_concat |]. split.
  - unfold chunks, range. rewrite !length_fmap, length_seq.
    assert (∃ k : nat, record_per_thread = Z.of_nat k ∧ 0 < k) as (k & -> & Hpos)
      by (exists (Z.to_nat record_per_thread); lia).
    rewrite <- Nat2Z.inj_div, Nat2Z.id. lia.
  - apply Forall_forall. intros chunk Hin. by eapply chunks_length_le.
Qed.

(** With fewer records than the thread size there is one slice: all the
    records. *)
Lemma chunks_small (records : list Row) (record_per_thread : Z) :
  (Z.of_nat (length records) < record_per_thread)%Z →
  chunks records record_per_thread = [records].
Proof.
  intros Hlt. unfold chunks, range.
  rewrite Z.div_small by lia. change (Z.to_nat (0 + 1)) with 1%nat.
  cbn [seq fmap list_fmap]. change (Z.of_nat 0) with 0%Z.
  f_equal. rewrite Z.mul_0_l, Z.add_0_l, Z.min_r by lia.
  rewrite py_slice_take_drop by lia.
  rewrite Z.sub_0_r, Nat2Z.id. change (Z.to_nat 0) with 0%nat.
  rewrite drop_0. by rewrite firstn_all.
Qed.

(** With a number of records that is a multiple of the thread size the
    last slice is empty. *)
Lemma chunks_last_empty (records : list Row) (record_per_thread : Z) :
  (0 < record_per_thread)%Z →
  (Z.of_nat (length records) mod record_per_thread = 0)%Z →
  chunks records record_per_thread
    !! Z.to_nat (Z.of_nat (length records) / record_per_thread)
  = Some [].
Proof.
  intros Hk Hmod. unfold chunks, range.
  set (n := Z.of_nat (length records)) in *.
  assert (Hq : (0 ≤ n / record_per_thread)%Z) by (apply Z.div_pos; lia).
  assert (Hn : (n / record_per_thread * record_per_thread = n)%Z).
  { pose proof (Z.div_mod n record_per_thread). lia. }
  rewrite <- list_fmap_compose, list_lookup_fmap.
  rewrite lookup_seq_lt by lia. cbn [fmap option_fmap option_map compose Nat.add].
  f_equal. rewrite Z2Nat.id by done. rewrite Hn.
  rewrite Z.min_r by lia. rewrite py_slice_take_drop by (fold n; lia).
  by rewrite Z.sub_diag.
Qed.

Lemma result_queue_nil sched : result_queue sched [] = [].
Proof.
  unfold result_queue. induction sched as [| t sched IH]; [done |].
  cbn [omap list_omap]. by rewrite lookup_nil.
Qed.

Section AverageEdges.

Variable py_float : string → option float.

(** X16: with fewer records than the thread size (and rows that have a
    RollNo and a Name) there is one worker, and [average] answers 200
    with one entry per stored record, the list of [calculate_avg] on the
    whole store. *)
Theorem average_small_store e record_per_thread fs :
  (Z.of_nat (length (read_csv e fs)) < record_per_thread)%Z →
  Forall named (read_csv e fs) →
  ∃ all_student_avg,
    calculate_avg py_float (read_csv e fs) = Ok all_student_avg ∧
    length all_student_avg = length (read_csv e fs) ∧
    average py_float e record_per_thread [0%nat] fs
    = Reply (Averages all_student_avg) 200.
Proof.
  intros Hlt Hnamed.
  destruct (calculate_avg_named py_float _ Hnamed) as (l & Hl & Hlen & _).
  exists l. split; [done |]. split; [done |].
  unfold average. destruct (Z.eqb_spec record_per_thread 0); [lia |].
  rewrite chunks_small by done. unfold result_queue.
  cbn [fmap list_fmap omap list_omap lookup list_lookup]. by rewrite Hl.
Qed.

(** X18: with thread size 0 [average] raises ZeroDivisionError; with a
    negative thread size and a store that is not empty it starts no
    thread, the queue stays empty and the view returns nothing
    (TypeError). *)
Theorem average_bad_thread_size e sched fs :
  average py_float e 0 sched fs = Raised ZeroDivisionError ∧
  (∀ record_per_thread, (record_per_thread < 0)%Z → read_csv e fs ≠ [] →
     average py_float e record_per_thread sched fs = Raised TypeError).
Proof.
  split; [done |]. intros k Hk Hrows. unfold average.
  destruct (Z.eqb_spec k 0); [lia |].
  assert (Hchunks : chunks (read_csv e fs) k = []).
  { unfold chunks, range. destruct (read_csv e fs) as [| row rows]; [done |].
    set (len := Z.of_nat (length (row :: rows))).
    assert (0 < len)%Z by (unfold len; rewrite length_cons; lia).
    pose proof (Z.div_mod len k). pose proof (Z.mod_neg_bound len k).
    assert (len / k + 1 ≤ 0)%Z by nia.
    by rewrite Z2Nat.nonpos by done. }
  rewrite Hchunks. cbn [fmap list_fmap]. by rewrite result_queue_nil.
Qed.

(** X17: when the number of records is a multiple of the thread size the
    last worker gets an empty slice; if it is the first to put its result,
    [average] answers 200 with an empty list. *)
Theorem average_multiple_may_be_empty e record_per_thread rest fs :
  (0 < record_per_thread)%Z →
  (Z.of_nat (length (read_csv e fs)) mod record_per_thread = 0)%Z →
  average py_float e record_per_thread
    (Z.to_nat (Z.of_nat (length (read_csv e fs)) / record_per_thread) :: rest) fs
  = Reply (Averages []) 200.
Proof.
  intros Hk Hmod. unfold average.
  destruct (Z.eqb_spec record_per_thread 0); [lia |].
  unfold result_queue. cbn [omap list_omap].
  rewrite list_lookup_fmap, chunks_last_empty by done.
  by cbn [fmap option_fmap option_map calculate_avg].
Qed.

(** X19: if some record of its slice has no RollNo or no Name,
    [calculate_avg] raises the KeyError of that key and puts nothing on
    the queue: the lookups are outside its [try]. *)
Theorem calculate_avg_unnamed records :
  Exists (λ row : Row, ¬ named row) records →
  ∃ key, key ∈ ["RollNo"; "Name"] ∧
    calculate_avg py_float records = Raise (KeyError key).
Proof.
  induction 1 as [row rows Hrow | row rows _ (key & Hkey & IH)].
  - cbn [calculate_avg]. unfold getitem.
    destruct (row !! "RollNo") as [rollno |] eqn:Hr; cbn [bind].
    + destruct (row !! "Name") as [name |] eqn:Hn; cbn [bind].
      * destruct Hrow. unfold named. rewrite Hr, Hn. eauto.
      * exists "Name". split; [| done]. rewrite !elem_of_cons. tauto.
    + exists "RollNo". split; [| done]. rewrite !elem_of_cons. tauto.
  - cbn [calculate_avg]. unfold getitem.
    destruct (row !! "RollNo") as [rollno |]; cbn [bind];
      [| exists "RollNo"; split; [rewrite !elem_of_cons; tauto | done]].
    destruct (row !! "Name") as [name |]; cbn [bind];
      [| exists "Name"; split; [rewrite !elem_of_cons; tauto | done]].
    rewrite IH. cbn [bind]. eauto.
Qed.

Lemma calculate_avg_dies records :
  Exists (λ row : Row, ¬ named row) records →
  ∃ ex, calculate_avg py_float records = Raise ex.
Proof.
  induction 1 as [row rows Hrow | row rows _ [ex IH]].
  - cbn [calculate_avg]. unfold getitem.
    destruct (row !! "RollNo") as [rollno |] eqn:Hr; cbn [bind]; [| eauto].
    destruct (row !! "Name") as [name |] eqn:Hn; cbn [bind]; [| eauto].
    destruct Hrow. unfold named. rewrite Hr, Hn. eauto.
  - cbn [calculate_avg]. unfold getitem.
    destruct (row !! "RollNo") as [rollno |]; cbn [bind]; [| eauto].
    destruct (row !! "Name") as [name |]; cbn [bind]; [| eauto].
    rewrite IH. cbn [bind]. eauto.
Qed.

(** X20: with fewer records than the thread size, if a stored record has
    no RollNo or no Name the only worker dies, the queue stays empty and
    [average] raises TypeError instead of answering. *)
Theorem average_worker_dies e record_per_thread fs :
  (Z.of_nat (length (read_csv e fs)) < record_per_thread)%Z →
  Exists (λ row : Row, ¬ named row) (read_csv e fs) →
  average py_float e record_per_thread [0%nat] fs = Raised TypeError.
Proof.
  intros Hlt Hex. destruct (calculate_avg_dies _ Hex) as [ex Hraise].
  unfold average. destruct (Z.eqb_spec record_per_thread 0); [lia |].
  rewrite chunks_small by done. unfold result_queue.
  cbn [fmap list_fmap omap list_omap lookup list_lookup]. by rewrite Hraise.
Qed.

End AverageEdges.

(** ** The forms *)

(** On a file with the header, [remove_data] always replies. *)
Lemma remove_data_replies e rollno fs :
  Forall (λ row : Row, is_Some (row !! "RollNo")) (read_csv e fs) →
  ∃ msg status,
    (remove_data e rollno fs).1 = Reply msg status ∧
    response_json (remove_data e rollno fs).1 = Ok msg.
Proof.
  intros Hsome. unfold remove_data. rewrite filter_RollNo_filter by done.
  case_decide; [by eexists _, _ |].
  destruct (write_csv e _ fs) as [[|] fs']; by eexists _, _.
Qed.

(** X21: when its DELETE reaches [remove_data] (readable file with the
    header), [remove_form] answers with the body of [remove_data] and
    status 200, whatever the status of [remove_data] was, and leaves the
    file as [remove_data] left it; a RollNo that is absent gives
    "Record not found" with status 200, not 404. *)
Theorem remove_form_answers_200 e h c s fs :
  reaches_remove h (String c s) = true →
  read_raises e = false →
  Forall has_header (stored fs) →
  (∃ msg status,
     (remove_data e (String c s) fs).1 = Reply msg status ∧
     remove_form e h POST (Some (String c s)) fs
     = (Reply msg 200, (remove_data e (String c s) fs).2)) ∧
  (¬ present (String c s) (stored fs) →
     remove_form e h POST (Some (String c s)) fs
     = (Reply (Error "Record not found") 200, fs)).
Proof.
  intros Hreach Hread Hwf.
  assert (Hsome : Forall (λ row : Row, is_Some (row !! "RollNo")) (read_csv e fs)).
  { rewrite read_csv_stored by done. by apply Forall_has_header_RollNo. }
  split.
  - destruct (remove_data_replies e (String c s) fs Hsome) as (msg & status & Hr & Hj).
    exists msg, status. split; [done |]. unfold remove_form. rewrite Hreach.
    destruct (remove_data e (String c s) fs) as [response fs'].
    cbn [fst snd] in *. by rewrite Hj.
  - intros Hno. unfold remove_form. rewrite Hreach.
    unfold remove_data. rewrite read_csv_stored by done.
    rewrite filter_RollNo_filter by by apply Forall_has_header_RollNo.
    by rewrite decide_True by by apply filter_length_present.
Qed.

Lemma update_rows_no_RollNo rows (data : gmap string json) :
  data !! "RollNo" = None →
  update_rows rows data = Ok ([], false) ∧ rows = [] ∨
  ∃ ex, update_rows rows data = Raise ex.
Proof.
  intros Hv. destruct rows as [| row rows]; [by left |]. right.
  cbn [update_rows]. unfold getitem.
  destruct (row !! "RollNo"); cbn [bind]; [| eauto]. rewrite Hv. cbn [bind]. eauto.
Qed.

(** X22: [update_form] answers 500 "Failed to process request" and leaves
    the file as it was when the form has no RollNo ([update_data] raises
    KeyError, and its error page is not JSON); when the PUT reaches
    [update_data] and the RollNo is absent, it answers "Record not found"
    with status 200. *)
Theorem update_form_answers e h (data : Row) fs :
  (data !! "RollNo" = None →
     update_form e h POST data fs
     = (Reply (Error "Failed to process request") 500, fs)) ∧
  (∀ rollno, reaches_update h = true → read_raises e = false →
     Forall has_header (stored fs) →
     data !! "RollNo" = Some rollno → ¬ present rollno (stored fs) →
     update_form e h POST data fs = (Reply (Error "Record not found") 200, fs)).
Proof.
  split.
  - intros Hv. unfold update_form. destruct (reaches_update h); [| done].
    assert (Hj : (JStr <$> data : gmap string json) !! "RollNo" = None)
      by (by rewrite lookup_fmap, Hv).
    unfold update_data.
    destruct (update_rows_no_RollNo (read_csv e fs) _ Hj) as [[-> _] | [ex ->]].
    + cbn [negb]. unfold getitem. by rewrite Hj.
    + done.
  - intros rollno Hreach Hread Hwf Hv Hno. unfold update_form. rewrite Hreach.
    assert (Hj : (JStr <$> data : gmap string json) !! "RollNo" = Some (JStr rollno))
      by (by rewrite lookup_fmap, Hv).
    unfold update_data. rewrite read_csv_stored by done.
    destruct (update_rows_updated (stored fs) _ rollno
                (Forall_has_header_RollNo _ Hwf) Hj) as (rows' & u & -> & Hu).
    destruct u; [by destruct Hno; apply Hu |]. cbn [negb].
    unfold getitem. by rewrite Hj.
Qed.

(** ** Instances on the sample data *)

Lemma write_then_read_witness :
  (write_csv calm [ann; delete "Science" bob] None).1 = true ∧
  read_csv calm (write_csv calm [ann; delete "Science" bob] None).2
  = written_row <$> [ann; delete "Science" bob].
Proof.
  destruct (write_then_read calm [ann; delete "Science" bob] None eq_refl eq_refl)
    as (Hok & Hback & _).
  - repeat (constructor; [by_compute |]). constructor.
  - split; [exact Hok | exact Hback].
Defined.

Lemma insert_unknown_field_witness :
  insert_data calm (<["Age" := "12"]> bob) (Some [ann])
  = (Reply (Error "Failed to write record") 500, Some [ann]).
Proof.
  apply (insert_unknown_field calm (<["Age" := "12"]> bob) (Some [ann]) "Age").
  - reflexivity.
  - reflexivity.
  - repeat constructor.
  - apply all_fields_forallb. reflexivity.
  - intros rollno Hr.
    assert (rollno = "2") as -> by (vm_compute in Hr; congruence).
    by_compute.
  - by_compute.
  - eexists. reflexivity.
Defined.

Lemma insert_unreadable_overwrites_witness :
  insert_data unreadable bob (Some [ann; cara])
  = (Reply (Message "Record inserted successfully") 201, Some [bob]).
Proof.
  apply (insert_unreadable_overwrites unreadable bob (Some [ann; cara])); reflexivity.
Defined.

Lemma open_failure_changes_nothing_witness :
  (insert_data read_only bob (Some [ann])).2 = Some [ann] ∧
  (remove_data read_only "1" (Some [ann])).2 = Some [ann] ∧
  (update_data read_only bob_maths (Some [ann; bob])).2 = Some [ann; bob].
Proof.
  destruct (open_failure_changes_nothing read_only (Some [ann]) eq_refl)
    as (Hinsert & Hremove & _).
  destruct (open_failure_changes_nothing read_only (Some [ann; bob]) eq_refl)
    as (_ & _ & Hupdate).
  split; [apply Hinsert |]. split; [apply Hremove | apply Hupdate].
Defined.

Lemma handlers_keep_header_witness :
  Forall has_header (stored (insert_data calm bob (Some [ann])).2) ∧
  Forall has_header (stored (update_data calm bob_maths (Some [ann; bob])).2).
Proof.
  split.
  - apply (handlers_keep_header calm (Some [ann])). repeat constructor.
  - apply (handlers_keep_header calm (Some [ann; bob])). repeat constructor.
Defined.

Lemma read_data_first_match_witness :
  read_data calm (Some "9") (Some [ann; bob]) = Reply (Error "Record not found") 404 ∧
  ∃ before row after, stored (Some [ann; bob]) = before ++ row :: after ∧
    ¬ present "2" before ∧ row !! "RollNo" = Some "2" ∧
    read_data calm (Some "2") (Some [ann; bob]) = Reply (RowBody row) 200.
Proof.
  assert (Hwf : Forall has_header (stored (Some [ann; bob]))) by repeat constructor.
  split.
  - apply (read_data_first_match calm (Some [ann; bob]) "9" "" eq_refl Hwf). by_compute.
  - apply (read_data_first_match calm (Some [ann; bob]) "2" "" eq_refl Hwf). by_compute.
Defined.

Lemma insert_then_read_witness :
  read_data calm (Some "2") (insert_data calm bob (Some [ann])).2
  = Reply (RowBody bob) 200.
Proof.
  apply (insert_then_read calm bob (Some [ann]) "2" "").
  - reflexivity.
  - repeat constructor.
  - reflexivity.
  - reflexivity.
Defined.

Lemma remove_then_read_witness :
  read_data calm (Some "1") (remove_data calm "1" (Some [ann; bob])).2
  = Reply (Error "Record not found") 404 ∧
  read_data calm (Some "2") (remove_data calm "1" (Some [ann; bob])).2
  = read_data calm (Some "2") (Some [ann; bob]).
Proof.
  destruct (remove_then_read calm "1" (Some [ann; bob]) eq_refl) as [Hgone Hother].
  - repeat constructor.
  - reflexivity.
  - split; [by apply (Hgone "1"%char "") | by apply Hother].
Defined.

Lemma update_replaces_witness :
  update_data calm bob_maths (Some [ann; bob])
  = (Reply (Message "Record updated successfully") 200,
     Some ((λ row : Row, if decide (row !! "RollNo" = Some "2")
                         then (csv_text <$> bob_maths) ∪ row else row)
             <$> [ann; bob])).
Proof.
  apply (update_replaces calm bob_maths (Some [ann; bob]) "2").
  - reflexivity.
  - repeat constructor.
  - reflexivity.
  - by_compute.
  - reflexivity.
  - by_compute.
Defined.

Lemma update_unknown_field_truncates_witness :
  update_data calm (<["Age" := JStr "12"]> bob_maths) (Some [ann; bob; cara])
  = (Reply (Error "Failed to update record") 500, Some [ann]).
Proof.
  apply (update_unknown_field_truncates calm (<["Age" := JStr "12"]> bob_maths)
           (Some [ann; bob; cara]) "2" "Age" [ann] bob [cara]).
  - reflexivity.
  - reflexivity.
  - repeat constructor.
  - reflexivity.
  - by_compute.
  - eexists. reflexivity.
  - reflexivity.
  - by_compute.
  - reflexivity.
Defined.

Lemma update_then_read_witness :
  read_data calm (Some "2") (update_data calm bob_maths (Some [ann; bob])).2
  = Reply (RowBody ((csv_text <$> bob_maths) ∪ bob)) 200.
Proof.
  apply (update_then_read calm bob_maths (Some [ann; bob]) "2" "" [ann] bob []).
  - reflexivity.
  - repeat constructor.
  - reflexivity.
  - reflexivity.
  - by_compute.
  - reflexivity.
  - reflexivity.
Defined.

Lemma chunks_partition_witness :
  concat (chunks eleven default_thread_size) = eleven ∧
  length (chunks eleven default_thread_size)
  = S (length eleven / Z.to_nat default_thread_size) ∧
  Forall (λ chunk : list Row, (Z.of_nat (length chunk) ≤ default_thread_size)%Z)
    (chunks eleven default_thread_size).
Proof. apply (chunks_partition eleven default_thread_size). reflexivity. Defined.

Lemma average_one_slice_witness :
  ∃ chunk student_avg,
    chunks (read_csv calm (Some eleven)) default_thread_size !! 1%nat = Some chunk ∧
    calculate_avg decimal_float chunk = Ok student_avg ∧
    average decimal_float calm default_thread_size [1; 0]%nat (Some eleven)
    = Reply (Averages student_avg) 200 ∧
    (Z.of_nat (length student_avg) ≤ default_thread_size)%Z.
Proof.
  apply (average_one_slice decimal_float calm default_thread_size 1 [0%nat] (Some eleven)).
  - reflexivity.
  - repeat constructor; eexists; reflexivity.
  - vm_compute. lia.
Defined.

Lemma average_small_store_witness :
  ∃ all_student_avg,
    calculate_avg decimal_float (read_csv calm (Some [ann; bob])) = Ok all_student_avg ∧
    length all_student_avg = length (read_csv calm (Some [ann; bob])) ∧
    average decimal_float calm default_thread_size [0%nat] (Some [ann; bob])
    = Reply (Averages all_student_avg) 200.
Proof.
  apply (average_small_store decimal_float calm default_thread_size (Some [ann; bob])).
  - reflexivity.
  - repeat constructor; eexists; reflexivity.
Defined.

Lemma average_multiple_may_be_empty_witness :
  average decimal_float calm 2 [1; 0]%nat (Some [ann; bob]) = Reply (Averages []) 200.
Proof.
  apply (average_multiple_may_be_empty decimal_float calm 2 [0%nat] (Some [ann; bob]));
    reflexivity.
Defined.

Lemma average_bad_thread_size_witness :
  average decimal_float calm 0 [0%nat] (Some [ann]) = Raised ZeroDivisionError ∧
  average decimal_float calm (-3) [0%nat] (Some [ann]) = Raised TypeError.
Proof.
  destruct (average_bad_thread_size decimal_float calm [0%nat] (Some [ann]))
    as [Hzero Hneg].
  split; [exact Hzero |]. apply Hneg; [reflexivity | discriminate].
Defined.

Lemma calculate_avg_unnamed_witness :
  ∃ key, key ∈ ["RollNo"; "Name"] ∧
    calculate_avg decimal_float [ann; delete "Name" bob] = Raise (KeyError key).
Proof.
  apply (calculate_avg_unnamed decimal_float [ann; delete "Name" bob]).
  apply Exists_cons_tl, Exists_cons_hd. intros [_ [name Hname]]. discriminate Hname.
Defined.

Lemma average_worker_dies_witness :
  average decimal_float calm default_thread_size [0%nat] (Some [ann; delete "Name" bob])
  = Raised TypeError.
Proof.
  apply (average_worker_dies decimal_float calm default_thread_size
           (Some [ann; delete "Name" bob])).
  - reflexivity.
  - apply Exists_cons_tl, Exists_cons_hd. intros [_ [name Hname]]. discriminate Hname.
Defined.

Lemma remove_form_answers_200_witness :
  remove_form calm delivering POST (Some "9") (Some [ann; bob])
  = (Reply (Error "Record not found") 200, Some [ann; bob]).
Proof.
  apply (remove_form_answers_200 calm delivering "9" "" (Some [ann; bob])).
  - reflexivity.
  - reflexivity.
  - repeat constructor.
  - by_compute.
Defined.

Lemma update_form_answers_witness :
  update_form calm delivering POST (delete "RollNo" bob) (Some [ann])
  = (Reply (Error "Failed to process request") 500, Some [ann]) ∧
  update_form calm delivering POST bob (Some [ann])
  = (Reply (Error "Record not found") 200, Some [ann]).
Proof.
  split.
  - apply (update_form_answers calm delivering (delete "RollNo" bob) (Some [ann])).
    reflexivity.
  - apply (update_form_answers calm delivering bob (Some [ann]) ) with (rollno := "2").
    + reflexivity.
    + reflexivity.
    + repeat constructor.
    + reflexivity.
    + by_compute.
Defined.

(** ** A write cut inside a line *)

(** The text of a complete write reads back as the rows written. *)
Example dict_reader_file_text :
  (text ← file_text [ann; tom]; dict_reader text)
  = Some ((λ row : Row, Some <$> row) <$> [ann; tom]).
Proof. vm_compute. reflexivity. Qed.

(** Cut at the end of Ann's line, the text reads back as Ann alone: the
    file that [WriteFailsAfter 1] leaves. *)
Example dict_reader_cut_between_rows :
  (text ← file_text [ann; tom]; dict_reader (cut 51 text))
  = Some ((λ row : Row, Some <$> row) <$> [ann]) ∧
  (write_csv full_after_one [ann; tom] None).2 = Some [ann].
Proof. split; vm_compute; reflexivity. Qed.


(** ** Exceptions that leave update_data on any JSON body *)

(** X6: for an update with any JSON body, the exceptions that can leave
    [insert_data], [remove_data] and [update_data] are the KeyError of a
    missing RollNo and, for a body that is not a JSON object, the
    TypeError of [data["RollNo"]]; what [write_csv] raises inside never
    leaves them, and a handler that raises leaves the file as it was. *)
Theorem handlers_raise e fs ex :
  (∀ data : Row, (insert_data e data fs).1 = Raised ex →
     ex = KeyError "RollNo" ∧ (insert_data e data fs).2 = fs) ∧
  (∀ rollno, (remove_data e rollno fs).1 = Raised ex →
     ex = KeyError "RollNo" ∧ (remove_data e rollno fs).2 = fs) ∧
  (∀ body, (update_data_json e body fs).1 = Raised ex →
     (ex = KeyError "RollNo" ∨ ex = TypeError ∧ body = JNotObject) ∧
     (update_data_json e body fs).2 = fs).
Proof.
  destruct (handlers_raise_KeyError e fs ex) as (Hinsert & Hremove & Hupdate).
  split; [| split].
  - intros data Hraised. split; [by apply (Hinsert data) |].
    revert Hraised. unfold insert_data.
    destruct (forallb _ csv_header); cbn [negb]; [| done].
    destruct (any_RollNo _ _) as [[|] |]; [done | | done].
    by destruct (write_csv e _ fs) as [[|] fs'].
  - intros rollno Hraised. split; [by apply (Hremove rollno) |].
    revert Hraised. unfold remove_data.
    destruct (filter_RollNo _ _) as [filtered |]; [| done].
    case_decide; [done |]. by destruct (write_csv e _ fs) as [[|] fs'].
  - intros [data |]; cbn [update_data_json].
    + intros Hraised. split; [left; by apply (Hupdate data) |].
      revert Hraised. unfold update_data.
      destruct (update_rows _ _) as [[records updated] |]; [| done].
      destruct updated; cbn [negb].
      * by destruct (write_csv e _ fs) as [[|] fs'].
      * by destruct (getitem data "RollNo").
    + destruct (read_csv e fs) as [| row rows].
      * intros [= <-]. split; [by right | done].
      * unfold getitem. destruct (row !! "RollNo") as [x |]; cbn [fst snd].
        -- intros [= <-]. split; [by right | done].
        -- intros [= <-]. split; [by left | done].
Qed.

(** X6 at work: an update whose body is a JSON list. *)
Lemma handlers_raise_witness :
  (update_data_json calm JNotObject (Some [ann])).1 = Raised TypeError ∧
  (TypeError = KeyError "RollNo" ∨ TypeError = TypeError ∧ JNotObject = JNotObject) ∧
  (update_data_json calm JNotObject (Some [ann])).2 = Some [ann].
Proof.
  split; [reflexivity |].
  apply (proj2 (proj2 (handlers_raise calm (Some [ann]) TypeError)) JNotObject).
  reflexivity.
Defined.

(** ** The rows and the bytes agree *)

Lemma append_assoc (a b c : string) : (a +:+ b) +:+ c = a +:+ (b +:+ c).
Proof.
  induction a as [| x a IH]; [done |].
  change (String x ((a +:+ b) +:+ c) = String x (a +:+ (b +:+ c))).
  by rewrite IH.
Qed.

Lemma append_empty_r (a : string) : a +:+ "" = a.
Proof.
  induction a as [| x a IH]; [done |].
  change (String x (a +:+ "") = String x a). by rewrite IH.
Qed.

Lemma plain_char_reader c :
  plain_char c = true →
  Ascii.eqb c quote_char || negb (ascii_char c) = false ∧
  Ascii.eqb c LF = false ∧ Ascii.eqb c CR = false ∧ Ascii.eqb c ","%char = false.
Proof.
  unfold plain_char. intros [Ha Hs%negb_true_iff]%andb_true_iff.
  rewrite !orb_false_iff in Hs. destruct Hs as [[[Hcomma Hq] Hcr] Hlf].
  by rewrite Hq, Ha, Hlf, Hcr, Hcomma.
Qed.

(** Reading a plain field adds it to the field at hand. *)
Lemma csv_reader_field f rest after_cr started fields field :
  plain f = true →
  csv_reader (f +:+ rest) after_cr started fields field
  = match f with
    | EmptyString => csv_reader rest after_cr started fields field
    | _ => csv_reader rest false true fields (field +:+ f)
    end.
Proof.
  revert after_cr started field. induction f as [| c f IH]; [done |].
  intros after_cr started field [Hc Hf]%andb_true_iff.
  destruct (plain_char_reader c Hc) as (Hq & Hlf & Hcr & Hcomma).
  change (String c f +:+ rest) with (String c (f +:+ rest)).
  cbn [csv_reader]. rewrite Hq, Hlf, Hcr, Hcomma.
  rewrite IH by done. destruct f as [| c' f']; [done |].
  by rewrite append_assoc.
Qed.

(** Reading the line of a non-empty row gives the row. *)
Lemma csv_reader_line f more rest started fields :
  forallb plain (f :: more) = true →
  started = true ∨ more ≠ [] ∨ f ≠ "" →
  csv_reader (String.concat "," (f :: more) +:+ String CR (String LF rest))
    false started fields ""
  = ((fields ++ f :: more) ::.) <$> csv_reader rest false false [] "".
Proof.
  revert f started fields. induction more as [| g more IH];
    intros f started fields [Hf Hmore]%andb_true_iff Hstart.
  - cbn [String.concat]. rewrite csv_reader_field by done.
    assert (Hrow : ∀ s fld, s = true →
      csv_reader (String CR (String LF rest)) false s fields fld
      = ((fields ++ [fld]) ::.) <$> csv_reader rest false false [] "").
    { intros s fld ->. cbn [csv_reader]. by destruct (csv_reader rest false false [] ""). }
    destruct f as [| c f].
    + apply Hrow. destruct Hstart as [? | [? | ?]]; done.
    + by apply Hrow.
  - cbn [String.concat]. rewrite append_assoc, csv_reader_field by done.
    assert (Hnext : ∀ a s fld,
      csv_reader (("," +:+ String.concat "," (g :: more))
                  +:+ String CR (String LF rest)) a s fields fld
      = ((fields ++ fld :: g :: more) ::.) <$> csv_reader rest false false [] "").
    { intros a s fld.
      change (("," +:+ String.concat "," (g :: more))
              +:+ String CR (String LF rest))
        with (String ","%char (String.concat "," (g :: more)
                               +:+ String CR (String LF rest))).
      cbn [csv_reader]. change (Ascii.eqb ","%char quote_char) with false.
      change (Ascii.eqb ","%char LF) with false.
      change (Ascii.eqb ","%char CR) with false.
      change (Ascii.eqb ","%char ","%char) with true.
      change (ascii_char ","%char) with true. cbn [orb negb].
      rewrite (IH g true (fields ++ [fld])) by (done || by left).
      by rewrite <- app_assoc. }
    destruct f as [| c f]; apply Hnext.
Qed.

Lemma concat_empty_cons (line : string) (lines : list string) :
  String.concat "" (line :: lines) = line +:+ String.concat "" lines.
Proof.
  destruct lines as [| l ls]; [by rewrite append_empty_r |]. reflexivity.
Qed.

Lemma csv_line_Some fields line :
  csv_line fields = Some line →
  line = String.concat "," fields +:+ String CR (String LF "") ∧
  forallb plain fields = true ∧ fields ≠ [""].
Proof.
  unfold csv_line. destruct (forallb plain fields) eqn:Hp; cbn [andb]; [| done].
  case_bool_decide as Hne; cbn [negb]; [done |]. by intros [= <-].
Qed.

(** Reading the line that [csv_line] makes of a row gives the row. *)
Lemma csv_reader_csv_line fields line rest :
  csv_line fields = Some line →
  csv_reader (line +:+ rest) false false [] ""
  = (fields ::.) <$> csv_reader rest false false [] "".
Proof.
  intros (-> & Hplain & Hne)%csv_line_Some. rewrite append_assoc.
  change (String CR (String LF "") +:+ rest) with (String CR (String LF rest)).
  destruct fields as [| f more].
  - change (String.concat "," [] +:+ String CR (String LF rest))
      with (String CR (String LF rest)).
    cbn [csv_reader]. by destruct (csv_reader rest false false [] "").
  - rewrite csv_reader_line; [done | done |].
    right. destruct more as [| g more]; [right | by left]. congruence.
Qed.

(** Reading the lines of a list of rows gives the rows. *)
Lemma csv_reader_lines (fieldss : list (list string)) (lines : list string) :
  mapM csv_line fieldss = Some lines →
  csv_reader (String.concat "" lines) false false [] "" = Some fieldss.
Proof.
  revert lines. induction fieldss as [| fields fieldss IH]; intros lines.
  - by intros [= <-].
  - intros Hm. apply mapM_Some in Hm. destruct lines as [| line lines]; [by inv Hm |].
    apply Forall2_cons in Hm as [Hline Hrest]. apply mapM_Some in Hrest.
    rewrite concat_empty_cons, (csv_reader_csv_line fields) by done.
    by rewrite (IH lines).
Qed.

(** The dict read from a line of five fields is the row they make. *)
Lemma reader_dict_five a b c d f :
  reader_dict csv_header [a; b; c; d; f]
  = Some (Some <$> as_read [a; b; c; d; f]).
Proof.
  unfold reader_dict, as_read, csv_header.
  cbn [length Nat.ltb Nat.leb Nat.sub replicate fmap list_fmap app zip zip_with
       reverse rev_append list_to_map foldr uncurry fst snd].
  reflexivity.
Qed.

Lemma dict_to_list_five (row : Row) fields :
  dict_to_list row = Ok fields → ∃ a b c d f, fields = [a; b; c; d; f].
Proof. intros ->%dict_to_list_fields. unfold csv_header. by eexists _, _, _, _, _. Qed.

Lemma plain_row_line (row : Row) :
  has_header row → plain_row row →
  ∃ fields line, dict_to_list row = Ok fields ∧ csv_line fields = Some line ∧
    as_read fields = row.
Proof.
  intros Hrow Hplain.
  destruct (dict_to_list_has_header row Hrow) as (fields & Hd & Hread).
  exists fields. pose proof (dict_to_list_fields _ _ Hd) as Hf.
  assert (Hall : forallb plain fields = true).
  { rewrite Hf. apply forallb_forall. intros v (key & <- & Hkey)%in_map_iff.
    apply list_elem_of_In in Hkey.
    destruct (has_header_field row key Hrow Hkey) as [x Hx].
    rewrite Hx. by apply (Hplain key). }
  assert (Hne : fields ≠ [""]) by (rewrite Hf; done).
  eexists. split; [done |]. split; [| done].
  unfold csv_line. rewrite Hall. by rewrite bool_decide_eq_false_2.
Qed.

Lemma header_line :
  csv_line csv_header
  = Some ("RollNo,Name,English,Maths,Science" +:+ String CR (String LF "")).
Proof. reflexivity. Qed.

(** The lines written for rows with the five columns and plain fields. *)
Lemma file_text_lines rows :
  Forall has_header rows → Forall plain_row rows →
  ∃ lines,
    mapM (λ rowdict : Row,
            match dict_to_list rowdict with
            | Ok fields => csv_line fields
            | Raise _ => None
            end) rows = Some lines ∧
    mapM csv_line ((λ row : Row, (λ key, default "" (row !! key)) <$> csv_header)
                     <$> rows) = Some lines.
Proof.
  intros Hwf Hplain. induction Hwf as [| row rows Hrow _ IH]; [by exists [] |].
  apply Forall_cons in Hplain as [Hp Hps]. destruct (IH Hps) as (lines & H1 & H2).
  destruct (plain_row_line row Hrow Hp) as (fields & line & Hd & Hline & _).
  exists (line :: lines). rewrite fmap_cons.
  pose proof (dict_to_list_fields _ _ Hd) as Hf. rewrite <- Hf.
  split.
  - change (mapM ?f (row :: rows)) with (y ← f row; k ← mapM f rows; mret (y :: k)).
    cbv beta. by rewrite Hd, Hline, H1.
  - change (mapM ?f (fields :: ?l)) with (y ← f fields; k ← mapM f l; mret (y :: k)).
    by rewrite Hline, H2.
Qed.

Lemma filter_fields_nonempty (rows : list Row) :
  filter (λ row : list string, row ≠ [])
    ((λ row : Row, (λ key, default "" (row !! key)) <$> csv_header) <$> rows)
  = (λ row : Row, (λ key, default "" (row !! key)) <$> csv_header) <$> rows.
Proof.
  induction rows as [| row rows IH]; [done |].
  rewrite fmap_cons, filter_cons_True by done. by rewrite IH.
Qed.

Lemma reader_dict_rows (rows : list Row) :
  Forall has_header rows →
  mapM (reader_dict csv_header)
    ((λ row : Row, (λ key, default "" (row !! key)) <$> csv_header) <$> rows)
  = Some ((λ row : Row, Some <$> row) <$> rows).
Proof.
  induction 1 as [| row rows Hrow _ IH]; [done |]. rewrite !fmap_cons.
  change (mapM ?f (?x :: ?l)) with (y ← f x; k ← mapM f l; mret (y :: k)).
  rewrite IH. unfold csv_header at 2. cbn [fmap list_fmap].
  rewrite reader_dict_five.
  change (as_read _) with (written_row row).
  by rewrite written_row_has_header.
Qed.

(** The text of a complete write reads back as the rows written. *)
Lemma dict_reader_complete rows :
  Forall has_header rows → Forall plain_row rows →
  ∃ text, file_text rows = Some text ∧
    dict_reader text = Some ((λ row : Row, Some <$> row) <$> rows).
Proof.
  intros Hwf Hplain.
  destruct (file_text_lines rows Hwf Hplain) as (lines & H1 & H2).
  eexists. split.
  - unfold file_text. rewrite header_line, H1. reflexivity.
  - unfold dict_reader.
    rewrite (csv_reader_csv_line csv_header) by apply header_line.
    rewrite (csv_reader_lines _ _ H2). cbn [fmap option_fmap option_map mbind option_bind].
    rewrite filter_fields_nonempty. by apply reader_dict_rows.
Qed.

Lemma substring_append (a b : string) :
  String.substring 0 (String.length a) (a +:+ b) = a.
Proof.
  induction a as [| c a IH]; [by destruct b |].
  change (String c (String.substring 0 (String.length a) (a +:+ b)) = String c a).
  by rewrite IH.
Qed.

Lemma concat_empty_app (l1 l2 : list string) :
  String.concat "" (l1 ++ l2) = String.concat "" l1 +:+ String.concat "" l2.
Proof.
  induction l1 as [| x l1 IH]; [done |].
  rewrite <- app_comm_cons, !concat_empty_cons, IH. by rewrite append_assoc.
Qed.

(** With the five columns in every row, [WriteFailsAfter n] leaves the
    first [n] rows. *)
Lemma writerows_room n rows :
  Forall has_header rows → (writerows (Some n) rows).1 = take n rows.
Proof.
  intros Hwf. revert n. induction Hwf as [| row rows Hrow _ IH]; intros n.
  - by destruct n.
  - cbn [writerows].
    destruct (dict_to_list_has_header row Hrow) as (fields & -> & Hread).
    destruct n as [| n]; [done |]. cbn [fmap option_fmap option_map Nat.pred].
    specialize (IH n). destruct (writerows (Some n) rows) as [written ex].
    cbn [fst] in *. by rewrite Hread, IH.
Qed.

(** X23: for rows with the five columns whose fields hold no comma,
    quote, line break or character outside ASCII, the text that a
    complete write sends, cut at the end of the line of the [n]-th row, is
    the text of the first [n] rows, and [DictReader] reads it back as
    those rows: the file that [write_csv] leaves in the row model when
    the device fails after [n] rows. *)
Theorem cut_between_rows e n rows fs :
  write_fault e = Some (WriteFailsAfter n) →
  Forall has_header rows → Forall plain_row rows →
  ∃ text text_n,
    file_text rows = Some text ∧
    file_text (take n rows) = Some text_n ∧
    cut (String.length text_n) text = text_n ∧
    dict_reader (cut (String.length text_n) text)
    = Some ((λ row : Row, Some <$> row) <$> take n rows) ∧
    (write_csv e rows fs).2 = Some (take n rows).
Proof.
  intros He Hwf Hplain.
  destruct (file_text_lines rows Hwf Hplain) as (lines & H1 & _).
  destruct (file_text_lines (take n rows)) as (lines_n & Hn & _);
    [by apply Forall_take | by apply Forall_take |].
  destruct (file_text_lines (drop n rows)) as (lines_r & Hr & _);
    [by apply Forall_drop | by apply Forall_drop |].
  assert (Hlines : lines = lines_n ++ lines_r).
  { pose proof H1 as Hall. rewrite <- (take_drop n rows) in Hall.
    pose proof Hn as Hn2. pose proof Hr as Hr2.
    apply mapM_Some in Hn2, Hr2.
    pose proof (Forall2_app Hn2 Hr2) as Happ.
    apply mapM_Some in Happ. congruence. }
  destruct (dict_reader_complete (take n rows)) as (text_n & Htn & Hread);
    [by apply Forall_take | by apply Forall_take |].
  assert (Htext_n : text_n = ("RollNo,Name,English,Maths,Science"
                              +:+ String CR (String LF "")) +:+ String.concat "" lines_n).
  { unfold file_text in Htn. rewrite header_line, Hn in Htn. by injection Htn. }
  eexists _, text_n. split; [| split; [done |]].
  - unfold file_text. rewrite header_line, H1. reflexivity.
  - assert (Hcut : cut (String.length text_n)
        (("RollNo,Name,English,Maths,Science" +:+ String CR (String LF ""))
         +:+ String.concat "" lines) = text_n).
    { rewrite Hlines, concat_empty_app, <- append_assoc, <- Htext_n.
      apply substring_append. }
    split; [exact Hcut |]. split; [by rewrite Hcut |].
    rewrite write_csv_catches. cbn [snd]. unfold write_csv_try. rewrite He.
    pose proof (writerows_room n rows Hwf) as Hw.
    destruct (writerows (Some n) rows) as [written ex]. cbn [fst snd] in *.
    by rewrite Hw.
Qed.

(** X23 at work: the device is full after the line of the first of two
    rows. *)
Lemma cut_between_rows_witness :
  ∃ text text_n,
    file_text [ann; tom] = Some text ∧
    file_text (take 1 [ann; tom]) = Some text_n ∧
    cut (String.length text_n) text = text_n ∧
    dict_reader (cut (String.length text_n) text)
    = Some ((λ row : Row, Some <$> row) <$> take 1 [ann; tom]) ∧
    (write_csv full_after_one [ann; tom] (Some [ann])).2
    = Some (take 1 [ann; tom]).
Proof.
  apply (cut_between_rows full_after_one 1 [ann; tom] (Some [ann]) eq_refl).
  - repeat (constructor; [by_compute |]). constructor.
  - repeat (constructor; [by_compute |]). constructor.
Defined.
